(** * woodwork: the column accessor (woodwork/column_accessor.py)

    A shallow embedding of [WoodworkColumnAccessor], the object that attaches
    a schema (logical type, semantic tags, description, metadata) to one
    pandas Series, together with the properties of its initialisation, of its
    property getters and setters, and of its equality.

    The accessor is a Python object with two attributes, [_series] and
    [_schema]; methods are modelled in a state and error monad over that
    object.  Python dictionaries are finite maps with string keys. *)

From stdpp Require Import gmap strings list fin_maps.
From Stdlib Require Import ZArith.

Set Warnings "-register-all".
Local Open Scope string_scope.

(** ** Python values *)

(** The fragment of Python's values that reaches the accessor as an argument:
    [None], booleans, integers, strings, lists, sets of strings, dictionaries
    with string keys, and arbitrary other objects, told apart by identity. *)
Inductive PyValue :=
  | PyNone
  | PyBool (b : bool)
  | PyInt (z : Z)
  | PyStr (s : string)
  | PyList (l : list PyValue)
  | PySet (s : gset string)
  | PyDict (d : gmap string PyValue)
  | PyObject (id : positive).

Global Instance PyValue_eq_dec : EqDecision PyValue.
Proof.
  refine (fix go (x y : PyValue) {struct x} : Decision (x = y) :=
    let _ : EqDecision PyValue := @go in
    match x, y with
    | PyNone, PyNone => left _
    | PyBool a, PyBool b => cast_if (decide (a = b))
    | PyInt a, PyInt b => cast_if (decide (a = b))
    | PyStr a, PyStr b => cast_if (decide (a = b))
    | PyList a, PyList b => cast_if (decide (a = b))
    | PySet a, PySet b => cast_if (decide (a = b))
    | PyDict a, PyDict b => cast_if (decide (a = b))
    | PyObject a, PyObject b => cast_if (decide (a = b))
    | _, _ => right _
    end); abstract congruence.
Defined.

(** Python's [==] on these values.  A boolean equals the integer it stands
    for ([True == 1], [False == 0]); lists and dictionaries are compared
    item by item; any other object equals itself only.  [canon] takes a value
    to the representative of its class: two values are [==] exactly when
    their representatives are the same. *)
Fixpoint canon (v : PyValue) : PyValue :=
  match v with
  | PyBool b => PyInt (if b then 1 else 0)
  | PyList l => PyList (canon <$> l)
  | PyDict d => PyDict (canon <$> d)
  | _ => v
  end.

Definition py_eq (x y : PyValue) : bool := bool_decide (canon x = canon y).

(** ** Python exceptions *)

(** The class of a raised exception: the builtin classes this module can
    raise, and [UserError] for a class defined by a library. *)
Inductive ExnClass :=
  | ValueError
  | TypeError
  | KeyError
  | AttributeError
  | UserError (class_name : string).

Global Instance ExnClass_eq_dec : EqDecision ExnClass.
Proof. solve_decision. Defined.

Record Exn := mkExn { exn_class : ExnClass; exn_msg : string }.

Global Instance Exn_eq_dec : EqDecision Exn.
Proof. solve_decision. Defined.

(** A call either returns a value or raises. *)
Inductive Outcome (A : Type) :=
  | Return (a : A)
  | Raise (e : Exn).
Global Arguments Return {A} a.
Global Arguments Raise {A} e.

Definition raises {A} (o : Outcome A) : bool :=
  match o with Return _ => false | Raise _ => true end.

(** [s] occurs in [t]: what it means for a message to name something. *)
Definition occurs_in (s t : string) : Prop :=
  ∃ pre post, t = pre +:+ s +:+ post.

(** ** The host library: pandas *)

Module pd.

(** dtype descriptors.  A categorical dtype carries its categories and
    whether they are ordered; the others are plain. *)
Inductive Dtype :=
  | int64
  | Int64
  | float64
  | bool_
  | boolean
  | object_
  | string_
  | datetime64_ns
  | CategoricalDtype (categories : list PyValue) (ordered : bool).

Global Instance Dtype_eq_dec : EqDecision Dtype.
Proof. solve_decision. Defined.

(** [str(dtype)]: the name of a dtype.  Every categorical dtype renders as
    'category', whatever its categories. *)
Definition str (d : Dtype) : string :=
  match d with
  | int64 => "int64"
  | Int64 => "Int64"
  | float64 => "float64"
  | bool_ => "bool"
  | boolean => "boolean"
  | object_ => "object"
  | string_ => "string"
  | datetime64_ns => "datetime64[ns]"
  | CategoricalDtype _ _ => "category"
  end.

(** A Series: its name, the labels of its index, its dtype and its values
    in order; [None] is a missing value. *)
Record Series := mkSeries {
  name : option string;
  index : list PyValue;
  dtype : Dtype;
  values : list (option PyValue)
}.

Global Instance Series_eq_dec : EqDecision Series.
Proof. solve_decision. Defined.

(** [dtype == dtype].  Two categorical dtypes of which one is ordered are
    equal when both are ordered and have the same categories in the same
    order; two unordered ones when they have the same categories, in any
    order.  Any other dtype equals itself only. *)
Definition dtype_equal (d1 d2 : Dtype) : bool :=
  match d1, d2 with
  | CategoricalDtype c1 o1, CategoricalDtype c2 o2 =>
      if o1 || o2
      then o1 && o2 && bool_decide (canon <$> c1 = canon <$> c2)
      else bool_decide (canon <$> c1 ⊆ canon <$> c2
                        ∧ canon <$> c2 ⊆ canon <$> c1)
  | _, _ => bool_decide (d1 = d2)
  end.

(** [Series.equals]: the two Series have the same index labels, the same
    dtype and, position by position, the same values, a missing value being
    equal to a missing value.  The names are not compared. *)
Definition equals (s1 s2 : Series) : bool :=
  bool_decide (canon <$> index s1 = canon <$> index s2)
  && dtype_equal (dtype s1) (dtype s2)
  && bool_decide (fmap (M:=option) canon <$> values s1
                  = fmap (M:=option) canon <$> values s2).

End pd.

(** ** Logical types (woodwork/logical_types.py) *)

(** What the accessor reads of a logical type: how it prints, the
    [pandas_dtype] it requires (a dtype name), its [standard_tags], and, for
    an instance of [Ordinal], its order values. *)
Record LogicalType := mkLogicalType {
  ltype_str : string;
  pandas_dtype : string;
  standard_tags : gset string;
  ordinal_order : option (list PyValue)
}.

Global Instance LogicalType_eq_dec : EqDecision LogicalType.
Proof. solve_decision. Defined.

(** [isinstance(logical_type, Ordinal)] *)
Definition isinstance_Ordinal (logical_type : LogicalType) : bool :=
  match ordinal_order logical_type with Some _ => true | None => false end.

(** The [logical_type] argument of [init]: absent, the name of a type, or a
    type. *)
Inductive LogicalTypeArg :=
  | LTAbsent
  | LTName (s : string)
  | LTGiven (logical_type : LogicalType).

(** ** The accessor object *)

(** A value stored in the schema dictionary. *)
Inductive SchemaValue :=
  | SLogicalType (logical_type : LogicalType)
  | SValue (v : PyValue).

Global Instance SchemaValue_eq_dec : EqDecision SchemaValue.
Proof. solve_decision. Defined.

(** [self]: [_schema] is [None] until [init] succeeds. *)
Record Accessor := mkAccessor {
  _series : pd.Series;
  _schema : option (gmap string SchemaValue)
}.

(** [WoodworkColumnAccessor.__init__] *)
Definition __init__ (series : pd.Series) : Accessor :=
  {| _series := series; _schema := None |}.

(** The state a method runs in: the accessor, and the record of the calls
    made so far to [Ordinal._validate_data], with their arguments. *)
Record State := mkState {
  self : Accessor;
  validated : list (LogicalType * pd.Series)
}.

(** ** The monad of methods: state and exceptions *)

Definition M (A : Type) : Type := State → Outcome A * State.

Definition ret {A} (a : A) : M A := λ st, (Return a, st).

Definition raise {A} (e : Exn) : M A := λ st, (Raise e, st).

Definition bind {A B} (m : M A) (k : A → M B) : M B :=
  λ st, match m st with
        | (Return a, st') => k a st'
        | (Raise e, st') => (Raise e, st')
        end.

Notation "'let!' x ':=' c 'in' k" := (bind c (λ x, k))
  (at level 10, x name, c at level 100, k at level 200).
Notation "c ';;' k" := (bind c (λ _, k))
  (at level 100, k at level 200, right associativity).

(** A call to a function that reads and writes nothing of the accessor. *)
Definition call {A} (o : Outcome A) : M A := λ st, (o, st).

Definition get_series : M pd.Series := λ st, (Return (_series (self st)), st).

Definition get_schema : M (option (gmap string SchemaValue)) :=
  λ st, (Return (_schema (self st)), st).

(** [self._schema = schema] *)
Definition set_schema (schema : option (gmap string SchemaValue)) : M unit :=
  λ st, (Return tt,
         {| self := {| _series := _series (self st); _schema := schema |};
            validated := validated st |}).

(** [schema[key]]: subscripting [None] is a [TypeError], a key that is not
    in the dictionary a [KeyError], whose message is the key, quoted. *)
Definition getitem (schema : option (gmap string SchemaValue)) (key : string)
  : Outcome SchemaValue :=
  match schema with
  | None => Raise (mkExn TypeError "'NoneType' object is not subscriptable")
  | Some d =>
      match d !! key with
      | Some v => Return v
      | None => Raise (mkExn KeyError ("'" +:+ key +:+ "'"))
      end
  end.

(** [schema[key] = v]: [None] supports no item assignment.  A dictionary is
    updated in place; the accessor holds the schema under [_schema] only, so
    the update is the new value of that attribute. *)
Definition setitem (schema : option (gmap string SchemaValue)) (key : string)
    (v : SchemaValue) : Outcome (gmap string SchemaValue) :=
  match schema with
  | None =>
      Raise (mkExn TypeError "'NoneType' object does not support item assignment")
  | Some d => Return (<[key := v]> d)
  end.

(** ** Validators of woodwork/schema_column.py *)

(** What [json.dumps] accepts among the values of the fragment. *)
Fixpoint json_serializable (v : PyValue) : bool :=
  match v with
  | PyNone | PyBool _ | PyInt _ | PyStr _ => true
  | PyList l => forallb json_serializable l
  | PyDict d => map_fold (λ _ x rest, json_serializable x && rest) true d
  | PySet _ | PyObject _ => false
  end.

(** Modelled from the spec: [_validate_description] of
    woodwork/schema_column.py, which is not among the sources.  The
    description "must be a string or absent (no other type permitted)", a
    [TypeError] otherwise. *)
Definition _validate_description (description : PyValue) : Outcome unit :=
  match description with
  | PyNone | PyStr _ => Return tt
  | _ => Raise (mkExn TypeError "Column description must be a string")
  end.

(** Modelled from the spec: [_validate_metadata] of
    woodwork/schema_column.py, which is not among the sources.  The metadata
    "must be a mapping whose values are JSON-serializable; no further shape
    constraint", a [TypeError] otherwise. *)
Definition _validate_metadata (metadata : PyValue) : Outcome unit :=
  match metadata with
  | PyDict d =>
      if json_serializable (PyDict d) then Return tt
      else Raise (mkExn TypeError "Column metadata must be JSON serializable")
  | _ => Raise (mkExn TypeError "Column metadata must be a dictionary")
  end.

(** ** The methods of [WoodworkColumnAccessor] *)

Section WoodworkColumnAccessor.

(** The functions the accessor imports from modules that are not part of
    this file: the resolution (or inference) of the logical type, the
    construction of the schema dictionary, and the validation hook of
    [Ordinal].  Each returns or raises, and has no access to the
    accessor. *)
Variable _get_column_logical_type :
  pd.Series → LogicalTypeArg → option string → Outcome LogicalType.
Variable _get_column_dict :
  option string → LogicalType → PyValue → bool → PyValue → PyValue →
  Outcome (gmap string SchemaValue).
Variable _validate_data : LogicalType → pd.Series → Outcome unit.

(** [logical_type._validate_data(self._series)], recorded. *)
Definition call_validate_data (logical_type : LogicalType)
    (series : pd.Series) : M unit :=
  λ st, (_validate_data logical_type series,
         {| self := self st;
            validated := validated st ++ [(logical_type, series)] |}).

(** The message of the error raised on an incompatible dtype. *)
Definition incompatible_msg (series : pd.Series)
    (logical_type : LogicalType) : string :=
  "Cannot initialize Woodwork. Series dtype '" +:+ pd.str (pd.dtype series)
  +:+ "' is incompatible with " +:+ ltype_str logical_type
  +:+ " dtype. Try converting series dtype to '"
  +:+ pandas_dtype logical_type +:+ "' before initializing.".

Definition _validate_logical_type (logical_type : LogicalType) : M unit :=
  let! series := get_series in
  (if bool_decide (pandas_dtype logical_type ≠ pd.str (pd.dtype series))
   then raise (mkExn ValueError (incompatible_msg series logical_type))
   else ret tt) ;;
  if isinstance_Ordinal logical_type
  then call_validate_data logical_type series
  else ret tt.

Definition init (logical_type : LogicalTypeArg) (semantic_tags : PyValue)
    (use_standard_tags : bool) (description metadata : PyValue) : M unit :=
  let! series := get_series in
  let! logical_type :=
    call (_get_column_logical_type series logical_type (pd.name series)) in
  _validate_logical_type logical_type ;;
  let! schema :=
    call (_get_column_dict (pd.name series) logical_type semantic_tags
            use_standard_tags description metadata) in
  set_schema (Some schema).

Definition description : M SchemaValue :=
  let! schema := get_schema in call (getitem schema "description").

Definition description_setter (description : PyValue) : M unit :=
  call (_validate_description description) ;;
  let! schema := get_schema in
  let! schema' := call (setitem schema "description" (SValue description)) in
  set_schema (Some schema').

Definition logical_type : M SchemaValue :=
  let! schema := get_schema in call (getitem schema "logical_type").

Definition metadata : M SchemaValue :=
  let! schema := get_schema in call (getitem schema "metadata").

Definition metadata_setter (metadata : PyValue) : M unit :=
  call (_validate_metadata metadata) ;;
  let! schema := get_schema in
  let! schema' := call (setitem schema "metadata" (SValue metadata)) in
  set_schema (Some schema').

Definition semantic_tags : M SchemaValue :=
  let! schema := get_schema in call (getitem schema "semantic_tags").

End WoodworkColumnAccessor.

(** [__eq__]: the schemas are compared with [!=], the two Series with the
    host's [Series.equals]. *)

(** Modelled from the spec: the equality of logical types, of
    woodwork/logical_types.py, which is not among the sources.  Schema
    records are compared structurally: two logical types are equal when they
    are the same type with equal parameters, the order values of an
    [Ordinal] being compared as Python compares lists. *)
Definition canon_ltype (lt : LogicalType) : LogicalType :=
  {| ltype_str := ltype_str lt; pandas_dtype := pandas_dtype lt;
     standard_tags := standard_tags lt;
     ordinal_order := fmap (M:=list) canon <$> ordinal_order lt |}.

Definition canon_entry (v : SchemaValue) : SchemaValue :=
  match v with
  | SLogicalType lt => SLogicalType (canon_ltype lt)
  | SValue v => SValue (canon v)
  end.

(** The representative of a schema under [==]: [None], or a dictionary with
    the same keys and the representatives of the values. *)
Definition canon_schema (schema : option (gmap string SchemaValue))
  : option (gmap string SchemaValue) :=
  fmap (M:=gmap string) canon_entry <$> schema.

(** [schema != schema'], on [None] and dictionaries. *)
Definition schema_ne (schema schema' : option (gmap string SchemaValue))
  : bool :=
  bool_decide (canon_schema schema ≠ canon_schema schema').

Section Equality.

Variable Series_equals : pd.Series → pd.Series → bool.

Definition __eq__ (self other : Accessor) : bool :=
  if schema_ne (_schema self) (_schema other) then false
  else Series_equals (_series self) (_series other).

End Equality.

(** [__repr__].  How Python formats the logical type and the set of tags
    stored in the schema is a parameter, [format]; the name of the Series
    formats as itself, or as None, and the dtype as its name. *)
Section Display.

Variable format : SchemaValue → string.

Definition format_name (name : option string) : string :=
  match name with Some s => s | None => "None" end.

Definition __repr__ : M string :=
  let! series := get_series in
  let msg := "<Series: " +:+ format_name (pd.name series) +:+ " " in
  let msg := msg +:+ "(Physical Type = " +:+ pd.str (pd.dtype series)
                 +:+ ") " in
  let! logical_type := logical_type in
  let msg := msg +:+ "(Logical Type = " +:+ format logical_type +:+ ") " in
  let! semantic_tags := semantic_tags in
  let msg := msg +:+ "(Semantic Tags = " +:+ format semantic_tags +:+ ")>" in
  ret msg.

End Display.

(** ** Sessions: the calls a client makes on one accessor *)

Inductive Call :=
  | CallInit (logical_type : LogicalTypeArg) (semantic_tags : PyValue)
      (use_standard_tags : bool) (description metadata : PyValue)
  | CallDescription
  | CallSetDescription (description : PyValue)
  | CallLogicalType
  | CallMetadata
  | CallSetMetadata (metadata : PyValue)
  | CallSemanticTags
  | CallRepr.

Definition is_init (c : Call) : bool :=
  match c with CallInit _ _ _ _ _ => true | _ => false end.

(** A call whose result the client drops. *)
Definition discard {A} (m : M A) : M unit := let! _ := m in ret tt.

Section Session.

Variable _get_column_logical_type :
  pd.Series → LogicalTypeArg → option string → Outcome LogicalType.
Variable _get_column_dict :
  option string → LogicalType → PyValue → bool → PyValue → PyValue →
  Outcome (gmap string SchemaValue).
Variable _validate_data : LogicalType → pd.Series → Outcome unit.
Variable format : SchemaValue → string.

Definition perform (c : Call) : M unit :=
  match c with
  | CallInit logical_type semantic_tags use_standard_tags description
      metadata =>
      init _get_column_logical_type _get_column_dict _validate_data
        logical_type semantic_tags use_standard_tags description metadata
  | CallDescription => discard description
  | CallSetDescription v => description_setter v
  | CallLogicalType => discard logical_type
  | CallMetadata => discard metadata
  | CallSetMetadata v => metadata_setter v
  | CallSemanticTags => discard semantic_tags
  | CallRepr => discard (__repr__ format)
  end.

(** The calls of a client in order; the client catches what a call raises
    and goes on with the next one. *)
Fixpoint session (calls : list Call) (st : State) : State :=
  match calls with
  | [] => st
  | c :: calls => session calls (snd (perform c st))
  end.

(** Some call of [init] in the session returned. *)
Fixpoint init_returned (calls : list Call) (st : State) : bool :=
  match calls with
  | [] => false
  | c :: calls =>
      (is_init c && negb (raises (fst (perform c st))))
      || init_returned calls (snd (perform c st))
  end.

End Session.

(** ** The properties, in the words of the specification *)

(** Two columns are element-wise equal: the same length and, position by
    position, the same value, a missing value matching only a missing
    value. *)
Definition elementwise_equal (xs ys : list (option PyValue)) : Prop :=
  length xs = length ys ∧ ∀ i, xs !! i = ys !! i.

(** Two values are equal for Python. *)
Definition py_equal (x y : PyValue) : Prop := canon x = canon y.

(** Two schemas are equal for Python: both are [None], or both are
    dictionaries with the same keys and, under each key, equal values. *)
Definition schemas_equal (schema schema' : option (gmap string SchemaValue))
  : Prop :=
  match schema, schema' with
  | None, None => True
  | Some d, Some d' =>
      ∀ key, option_Forall2 (λ v w, canon_entry v = canon_entry w)
               (d !! key) (d' !! key)
  | _, _ => False
  end.

(** Two columns are equal for the host library: the same index labels, the
    same dtype and, position by position, the same value, a missing value
    matching only a missing value. *)
Definition columns_equal (s1 s2 : pd.Series) : Prop :=
  Forall2 py_equal (pd.index s1) (pd.index s2)
  ∧ pd.dtype_equal (pd.dtype s1) (pd.dtype s2) = true
  ∧ Forall2 (option_Forall2 py_equal) (pd.values s1) (pd.values s2).

(** The compatibility check rejects the logical type: [_validate_logical_type]
    raises its own error, before anything else has happened. *)
Definition rejects (_validate_data : LogicalType → pd.Series → Outcome unit)
    (logical_type : LogicalType) (st : State) : Prop :=
  _validate_logical_type _validate_data logical_type st
  = (Raise (mkExn ValueError
              (incompatible_msg (_series (self st)) logical_type)), st).

(** The compatibility rule as a comparison of type descriptors: every logical
    type declares a required descriptor, and the check rejects exactly the
    columns whose descriptor is a different one. *)
Definition structural_check (required : LogicalType → pd.Dtype) : Prop :=
  ∀ _validate_data logical_type st,
    rejects _validate_data logical_type st
    ↔ required logical_type ≠ pd.dtype (_series (self st)).

(** The state once the validation of [lt] is over. *)
Definition after_validation (lt : LogicalType) (st : State) : State :=
  if isinstance_Ordinal lt
  then {| self := self st;
          validated := validated st ++ [(lt, _series (self st))] |}
  else st.

(** The state after the entry [key] of the schema [d] is set to [v]. *)
Definition with_entry (key : string) (v : PyValue)
    (d : gmap string SchemaValue) (st : State) : State :=
  {| self := {| _series := _series (self st);
                _schema := Some (<[key := SValue v]> d) |};
     validated := validated st |}.

(** What a setter does once the value is validated. *)
Definition assign (key : string) (v : PyValue) (st : State)
  : Outcome unit * State :=
  match _schema (self st) with
  | None =>
      (Raise (mkExn TypeError
                "'NoneType' object does not support item assignment"), st)
  | Some d => (Return tt, with_entry key v d st)
  end.

(** The schema of an accessor, if it has one, holds a logical type whose
    [pandas_dtype] is the name of the dtype of the Series. *)
Definition compatible_schema (a : Accessor) : Prop :=
  match _schema a with
  | None => True
  | Some d =>
      ∃ lt, d !! "logical_type" = Some (SLogicalType lt)
            ∧ pandas_dtype lt = pd.str (pd.dtype (_series a))
  end.

(** The outcome of the last two statements of [init], once the logical type
    is resolved and validated: that of the construction of the record. *)
Definition construction
    (_get_column_dict : option string → LogicalType → PyValue → bool →
                        PyValue → PyValue → Outcome (gmap string SchemaValue))
    (series : pd.Series) (lt : LogicalType)
    (tags : PyValue) (ust : bool) (desc meta : PyValue) : Outcome unit :=
  match _get_column_dict (pd.name series) lt tags ust desc meta with
  | Return _ => Return tt
  | Raise e => Raise e
  end.

(** A description the setter accepts: a string, or absent. *)
Definition str_or_None (v : PyValue) : bool :=
  match v with PyNone | PyStr _ => true | _ => false end.

(** A metadata value the setter accepts: a mapping, every value of which is
    JSON-serializable. *)
Definition serializable_mapping (v : PyValue) : Prop :=
  match v with
  | PyDict d => map_Forall (λ _ x, json_serializable x = true) d
  | _ => False
  end.

(** ** A catalog and collaborators to run the accessor on *)

Definition Integer : LogicalType :=
  {| ltype_str := "Integer"; pandas_dtype := "Int64";
     standard_tags := {["numeric"]}; ordinal_order := None |}.

Definition Double : LogicalType :=
  {| ltype_str := "Double"; pandas_dtype := "float64";
     standard_tags := {["numeric"]}; ordinal_order := None |}.

Definition NaturalLanguage : LogicalType :=
  {| ltype_str := "NaturalLanguage"; pandas_dtype := "string";
     standard_tags := ∅; ordinal_order := None |}.

Definition Categorical : LogicalType :=
  {| ltype_str := "Categorical"; pandas_dtype := "category";
     standard_tags := {["category"]}; ordinal_order := None |}.

Definition Ordinal (order : list PyValue) : LogicalType :=
  {| ltype_str := "Ordinal"; pandas_dtype := "category";
     standard_tags := {["category"]}; ordinal_order := Some order |}.

Definition catalog : list LogicalType :=
  [Integer; Double; NaturalLanguage; Categorical].

(** Modelled from the spec: [_get_column_logical_type] of woodwork/utils.py,
    which is not among the sources.  "Explicit value takes precedence;
    otherwise run inference": a type is taken as it is, a name is looked up in
    the catalog, and inference takes the first entry of the catalog that
    fits the dtype of the column. *)
Definition get_column_logical_type (series : pd.Series)
    (logical_type : LogicalTypeArg) (name : option string)
  : Outcome LogicalType :=
  match logical_type with
  | LTGiven lt => Return lt
  | LTName s =>
      match List.find (λ lt, String.eqb (ltype_str lt) s) catalog with
      | Some lt => Return lt
      | None => Raise (mkExn ValueError ("String " +:+ s +:+
                                         " is not a valid logical type"))
      end
  | LTAbsent =>
      match List.find (λ lt, String.eqb (pandas_dtype lt)
                                      (pd.str (pd.dtype series))) catalog with
      | Some lt => Return lt
      | None => Return NaturalLanguage
      end
  end.

(** The [semantic_tags] argument, "a single string, or a collection of
    strings; normalized to a set". *)
Fixpoint strings_of (l : list PyValue) : option (gset string) :=
  match l with
  | [] => Some ∅
  | PyStr s :: l' =>
      match strings_of l' with
      | Some tags => Some ({[s]} ∪ tags)
      | None => None
      end
  | _ => None
  end.

Definition tags_of (semantic_tags : PyValue) : Outcome (gset string) :=
  match semantic_tags with
  | PyNone => Return ∅
  | PyStr s => Return {[s]}
  | PySet s => Return s
  | PyList l =>
      match strings_of l with
      | Some tags => Return tags
      | None => Raise (mkExn TypeError "semantic_tags must contain only strings")
      end
  | _ => Raise (mkExn TypeError "semantic_tags must be a string, set or list")
  end.

(** Modelled from the spec: [_get_column_dict] of woodwork/schema_column.py,
    which is not among the sources.  It validates the description and the
    metadata, builds the tags as the union of the standard tags (if enabled)
    and the caller's, and assembles the record; absent metadata is the empty
    mapping. *)
Definition get_column_dict (name : option string) (logical_type : LogicalType)
    (semantic_tags : PyValue) (use_standard_tags : bool)
    (description metadata : PyValue) : Outcome (gmap string SchemaValue) :=
  let metadata := match metadata with PyNone => PyDict ∅ | m => m end in
  match _validate_description description with
  | Raise e => Raise e
  | Return _ =>
  match _validate_metadata metadata with
  | Raise e => Raise e
  | Return _ =>
  match tags_of semantic_tags with
  | Raise e => Raise e
  | Return tags =>
      Return (<["name" := SValue (from_option PyStr PyNone name)]>
              (<["logical_type" := SLogicalType logical_type]>
              (<["semantic_tags" :=
                   SValue (PySet ((if use_standard_tags
                                   then standard_tags logical_type else ∅)
                                  ∪ tags))]>
              (<["use_standard_tags" := SValue (PyBool use_standard_tags)]>
              (<["description" := SValue description]>
              (<["metadata" := SValue metadata]> ∅))))))
  end end end.

(** Modelled from the spec: [Ordinal._validate_data] of
    woodwork/logical_types.py, which is not among the sources.  The declared
    order must be "a subset of the distinct values actually present in the
    column" and free of duplicates. *)
Definition validate_data (logical_type : LogicalType) (series : pd.Series)
  : Outcome unit :=
  match ordinal_order logical_type with
  | None => Return tt
  | Some order =>
      if bool_decide (NoDup order)
         && forallb (λ v, bool_decide (Some v ∈ pd.values series)) order
      then Return tt
      else Raise (mkExn (UserError "ValidationError")
                    "order values are inconsistent with the data")
  end.

(** A rendering of the two entries [__repr__] reads, for the examples: a
    logical type prints as its name, and a set of tags as Python prints a set
    of strings, the elements quoted and between braces, the empty set as
    set().  Python lists the elements of a set in an order of its own; here
    they come in the order of [elements]. *)
Definition render (v : SchemaValue) : string :=
  match v with
  | SLogicalType lt => ltype_str lt
  | SValue PyNone => "None"
  | SValue (PyBool b) => if b then "True" else "False"
  | SValue (PyStr s) => s
  | SValue (PySet tags) =>
      match elements tags with
      | [] => "set()"
      | l => "{" +:+ String.concat ", " ((λ s, "'" +:+ s +:+ "'") <$> l)
             +:+ "}"
      end
  | SValue _ => "..."
  end.

(** Columns and accessors used in the examples. *)
Definition ints : pd.Series :=
  {| pd.name := Some "n"; pd.index := [PyInt 0; PyInt 1; PyInt 2];
     pd.dtype := pd.int64;
     pd.values := [Some (PyInt 1); Some (PyInt 2); Some (PyInt 3)] |}.

(** The same values under the nullable integer dtype, and under other
    labels. *)
Definition nullable_ints : pd.Series :=
  {| pd.name := Some "n"; pd.index := [PyInt 0; PyInt 1; PyInt 2];
     pd.dtype := pd.Int64;
     pd.values := [Some (PyInt 1); Some (PyInt 2); Some (PyInt 3)] |}.

Definition relabelled_ints : pd.Series :=
  {| pd.name := Some "n"; pd.index := [PyInt 5; PyInt 6; PyInt 7];
     pd.dtype := pd.int64;
     pd.values := [Some (PyInt 1); Some (PyInt 2); Some (PyInt 3)] |}.

Definition letters (categories : list PyValue) (ordered : bool) : pd.Series :=
  {| pd.name := Some "c"; pd.index := [PyInt 0; PyInt 1; PyInt 2];
     pd.dtype := pd.CategoricalDtype categories ordered;
     pd.values := [Some (PyStr "a"); None; Some (PyStr "b")] |}.

Definition fresh (series : pd.Series) : State :=
  {| self := __init__ series; validated := [] |}.

Definition run {A} (m : M A) (st : State) : State := snd (m st).

(** [letters] with the categories a and b, initialised as [Categorical]. *)
Definition initialised : State :=
  run (init get_column_logical_type get_column_dict validate_data
         (LTGiven Categorical) (PyStr "tag") true (PyStr "old")
         (PyDict {["k" := PyInt 1]}))
      (fresh (letters [PyStr "a"; PyStr "b"] false)).

(** The schema [init] installs there. *)
Definition initialised_record : gmap string SchemaValue :=
  <["name" := SValue (PyStr "c")]>
  (<["logical_type" := SLogicalType Categorical]>
  (<["semantic_tags" := SValue (PySet ({["category"]} ∪ {["tag"]}))]>
  (<["use_standard_tags" := SValue (PyBool true)]>
  (<["description" := SValue (PyStr "old")]>
  (<["metadata" := SValue (PyDict {["k" := PyInt 1]})]> ∅))))).

(** The same column, never initialised, and a column that differs from it in
    one value. *)
Definition uninitialised : State :=
  fresh (letters [PyStr "a"; PyStr "b"] false).

Definition other_letters : pd.Series :=
  {| pd.name := Some "c"; pd.index := [PyInt 0; PyInt 1; PyInt 2];
     pd.dtype := pd.CategoricalDtype [PyStr "a"; PyStr "b"] false;
     pd.values := [Some (PyStr "a"); None; Some (PyStr "a")] |}.

(** ** Strings and messages *)

Lemma append_assoc (s t u : string) : (s +:+ t) +:+ u = s +:+ t +:+ u.
Proof.
  induction s as [|a s IH]; [reflexivity|].
  change (String a ((s +:+ t) +:+ u) = String a (s +:+ t +:+ u)).
  by rewrite IH.
Qed.

Lemma occurs_in_middle (s pre post : string) :
  occurs_in s (pre +:+ s +:+ post).
Proof. by exists pre, post. Qed.

Lemma occurs_in_append (s pre t : string) :
  occurs_in s t → occurs_in s (pre +:+ t).
Proof.
  intros (p & q & ->). exists (pre +:+ p), q. by rewrite append_assoc.
Qed.

Lemma incompatible_msg_names_series_dtype series lt :
  occurs_in (pd.str (pd.dtype series)) (incompatible_msg series lt).
Proof. apply occurs_in_middle. Qed.

Lemma incompatible_msg_names_required_dtype series lt :
  occurs_in (pandas_dtype lt) (incompatible_msg series lt).
Proof.
  unfold incompatible_msg. do 5 apply occurs_in_append.
  apply (occurs_in_middle _ "").
Qed.

(** ** Lists and pairs *)

Lemma surjective_pairing_raise {A} (p : Outcome A * State) e :
  fst p = Raise e → p = (Raise e, snd p).
Proof. destruct p as [o st]. simpl. by intros ->. Qed.

Lemma snoc_neq {A} (l : list A) (x : A) : (l ++ [x])%list ≠ l.
Proof.
  intros H. apply (f_equal length) in H. rewrite length_app in H.
  simpl in H. lia.
Qed.

(** ** The compatibility check and the validation hook *)

Section Validation.

Variable _validate_data : LogicalType → pd.Series → Outcome unit.

Lemma validate_incompatible lt st :
  pandas_dtype lt ≠ pd.str (pd.dtype (_series (self st))) →
  _validate_logical_type _validate_data lt st
  = (Raise (mkExn ValueError (incompatible_msg (_series (self st)) lt)), st).
Proof.
  intros H. unfold _validate_logical_type, bind, get_series, raise.
  by rewrite bool_decide_eq_true_2.
Qed.

Lemma validate_compatible_Ordinal lt st :
  pandas_dtype lt = pd.str (pd.dtype (_series (self st))) →
  isinstance_Ordinal lt = true →
  _validate_logical_type _validate_data lt st
  = (_validate_data lt (_series (self st)),
     {| self := self st;
        validated := validated st ++ [(lt, _series (self st))] |}).
Proof.
  intros H Hord. unfold _validate_logical_type, bind, get_series, ret.
  rewrite bool_decide_eq_false_2 by (intros ?; done).
  by rewrite Hord.
Qed.

Lemma validate_compatible_other lt st :
  pandas_dtype lt = pd.str (pd.dtype (_series (self st))) →
  isinstance_Ordinal lt = false →
  _validate_logical_type _validate_data lt st = (Return tt, st).
Proof.
  intros H Hord. unfold _validate_logical_type, bind, get_series, ret.
  rewrite bool_decide_eq_false_2 by (intros ?; done).
  by rewrite Hord.
Qed.

(** Whatever it does, [_validate_logical_type] leaves the accessor as it
    was. *)
Lemma validate_self lt st :
  self (snd (_validate_logical_type _validate_data lt st)) = self st.
Proof.
  destruct (decide (pandas_dtype lt = pd.str (pd.dtype (_series (self st)))))
    as [Heq|Hne].
  - destruct (isinstance_Ordinal lt) eqn:Hord.
    + by rewrite validate_compatible_Ordinal.
    + by rewrite validate_compatible_other.
  - by rewrite validate_incompatible.
Qed.

End Validation.

(** ** Initialisation *)

Section Initialisation.

Variable _get_column_logical_type :
  pd.Series → LogicalTypeArg → option string → Outcome LogicalType.
Variable _get_column_dict :
  option string → LogicalType → PyValue → bool → PyValue → PyValue →
  Outcome (gmap string SchemaValue).
Variable _validate_data : LogicalType → pd.Series → Outcome unit.

Local Abbreviation init' :=
  (init _get_column_logical_type _get_column_dict _validate_data).
Local Abbreviation validate' := (_validate_logical_type _validate_data).

(** [init], statement by statement. *)
Lemma init_steps arg tags ust desc meta st :
  init' arg tags ust desc meta st =
  let series := _series (self st) in
  match _get_column_logical_type series arg (pd.name series) with
  | Raise e => (Raise e, st)
  | Return lt =>
      match validate' lt st with
      | (Raise e, st') => (Raise e, st')
      | (Return _, st') =>
          match _get_column_dict (pd.name series) lt tags ust desc meta with
          | Raise e => (Raise e, st')
          | Return schema => set_schema (Some schema) st'
          end
      end
  end.
Proof.
  unfold init, bind at 1 2. unfold get_series, call. simpl.
  destruct (_get_column_logical_type _ _ _) as [lt|e]; [|done].
  unfold bind at 1.
  destruct (validate' lt st) as [[[]|e] st']; [|done].
  unfold bind.
  by destruct (_get_column_dict _ _ _ _ _ _).
Qed.

(** C1, as amended: when the [pandas_dtype] of the resolved logical type
    is not the name of the dtype of the column, [init] raises a
    [ValueError] whose message names both the dtype of the column and the
    required dtype, and the state, hence any schema installed before, is
    what it was. *)
Theorem init_incompatible_ValueError arg tags ust desc meta st lt :
  _get_column_logical_type (_series (self st)) arg
    (pd.name (_series (self st))) = Return lt →
  pandas_dtype lt ≠ pd.str (pd.dtype (_series (self st))) →
  ∃ e, init _get_column_logical_type _get_column_dict _validate_data
         arg tags ust desc meta st = (Raise e, st)
       ∧ exn_class e = ValueError
       ∧ occurs_in (pd.str (pd.dtype (_series (self st)))) (exn_msg e)
       ∧ occurs_in (pandas_dtype lt) (exn_msg e).
Proof.
  intros Hres Hne.
  exists (mkExn ValueError (incompatible_msg (_series (self st)) lt)).
  split; [|split; [done|split]].
  - rewrite init_steps. simpl. rewrite Hres.
    by rewrite validate_incompatible.
  - apply incompatible_msg_names_series_dtype.
  - apply incompatible_msg_names_required_dtype.
Qed.

(** Whichever step raises, the accessor is what it was. *)
Lemma init_raise_self arg tags ust desc meta st e st' :
  init _get_column_logical_type _get_column_dict _validate_data
    arg tags ust desc meta st = (Raise e, st') →
  self st' = self st.
Proof.
  rewrite init_steps. simpl.
  destruct (_get_column_logical_type _ _ _) as [lt|e0].
  - pose proof (validate_self _validate_data lt st) as Hself.
    destruct (validate' lt st) as [[[]|e1] st1]; simpl in Hself.
    + destruct (_get_column_dict _ _ _ _ _ _) as [schema|e2].
      * discriminate.
      * intros [= _ <-]. exact Hself.
    + intros [= _ <-]. exact Hself.
  - by intros [= _ <-].
Qed.

(** C2: [init] is all-or-nothing.  Whichever step raises (the resolution of
    the logical type, the compatibility check, the validation hook or the
    construction of the record), the accessor after the call is the
    accessor before the call: its schema is the one installed before, or
    still [None]. *)
Theorem init_all_or_nothing arg tags ust desc meta st e st' :
  init _get_column_logical_type _get_column_dict _validate_data
    arg tags ust desc meta st = (Raise e, st') →
  self st' = self st.
Proof.
  rewrite init_steps. simpl.
  destruct (_get_column_logical_type _ _ _) as [lt|e0].
  - pose proof (validate_self _validate_data lt st) as Hself.
    destruct (validate' lt st) as [[[]|e1] st1]; simpl in Hself.
    + destruct (_get_column_dict _ _ _ _ _ _) as [schema|e2].
      * discriminate.
      * intros [= _ <-]. exact Hself.
    + intros [= _ <-]. exact Hself.
  - by intros [= _ <-].
Qed.

(** Whatever the validation hook is, [init] calls it if and only if the
    resolved logical type is an [Ordinal] and the compatibility check has
    passed, once and on the Series of the accessor, and raises the error of
    the hook when the hook reports one. *)
Lemma init_hook_calls arg tags ust desc meta st lt :
  _get_column_logical_type (_series (self st)) arg
    (pd.name (_series (self st))) = Return lt →
  let series := _series (self st) in
  let compatible := pandas_dtype lt = pd.str (pd.dtype series) in
  let o := fst (init _get_column_logical_type _get_column_dict
                  _validate_data arg tags ust desc meta st) in
  let st' := snd (init _get_column_logical_type _get_column_dict
                    _validate_data arg tags ust desc meta st) in
  (validated st' ≠ validated st
     ↔ isinstance_Ordinal lt = true ∧ compatible)
  ∧ (isinstance_Ordinal lt = true → compatible →
       validated st' = (validated st ++ [(lt, series)])%list
       ∧ o = match _validate_data lt series with
             | Raise e => Raise e
             | Return _ =>
                 construction _get_column_dict series lt tags ust desc meta
             end)
  ∧ (isinstance_Ordinal lt = false → compatible →
       validated st' = validated st
       ∧ o = construction _get_column_dict series lt tags ust desc meta).
Proof.
  intros Hres series compatible. subst compatible. simpl.
  rewrite init_steps. simpl. rewrite Hres. fold series.
  unfold construction.
  destruct (decide (pandas_dtype lt = pd.str (pd.dtype series)))
    as [Heq|Hne].
  - destruct (isinstance_Ordinal lt) eqn:Hord.
    + rewrite validate_compatible_Ordinal by done. fold series.
      destruct (_validate_data lt series) as [[]|e];
        [destruct (_get_column_dict _ _ _ _ _ _)|]; simpl;
        (split; [split; [done|intros _; apply snoc_neq]
                |split; [done|discriminate]]).
    + rewrite validate_compatible_other by done.
      split; [|split].
      * split; [|by intros [? _]].
        intros H. exfalso. apply H.
        by destruct (_get_column_dict _ _ _ _ _ _).
      * discriminate.
      * intros _ _. by destruct (_get_column_dict _ _ _ _ _ _).
  - rewrite validate_incompatible by done. simpl.
    split; [|split]; [|done..].
    split; [done|]. by intros [_ ?].
Qed.

End Initialisation.

(** ** The validation of an [Ordinal] *)

Lemma validate_data_ValidationError lt series e :
  validate_data lt series = Raise e →
  exn_class e = UserError "ValidationError".
Proof.
  unfold validate_data. destruct (ordinal_order lt); [|done].
  destruct (_ && _); [done|]. by intros [= <-].
Qed.

Section OrdinalValidation.

Variable _get_column_logical_type :
  pd.Series → LogicalTypeArg → option string → Outcome LogicalType.
Variable _get_column_dict :
  option string → LogicalType → PyValue → bool → PyValue → PyValue →
  Outcome (gmap string SchemaValue).

(** C4: during [init], the validation hook of the logical type is called
    if and only if the resolved logical type is an [Ordinal] and the
    compatibility check has passed.  It is then called once, on the Series
    of the accessor, and the validation raises a [ValidationError] exactly
    when the hook reports the order inconsistent with the data; [init] then
    raises that error, and otherwise goes on to the construction of the
    record.  For every other compatible logical type nothing is validated
    and the outcome is that of the construction of the record. *)
Theorem init_validation_hook arg tags ust desc meta st lt :
  _get_column_logical_type (_series (self st)) arg
    (pd.name (_series (self st))) = Return lt →
  let series := _series (self st) in
  let compatible := pandas_dtype lt = pd.str (pd.dtype series) in
  let o := fst (init _get_column_logical_type _get_column_dict
                  validate_data arg tags ust desc meta st) in
  let st' := snd (init _get_column_logical_type _get_column_dict
                    validate_data arg tags ust desc meta st) in
  (validated st' ≠ validated st
     ↔ isinstance_Ordinal lt = true ∧ compatible)
  ∧ (isinstance_Ordinal lt = true → compatible →
       validated st' = (validated st ++ [(lt, series)])%list
       ∧ ((∃ e, fst (_validate_logical_type validate_data lt st) = Raise e
                ∧ exn_class e = UserError "ValidationError")
          ↔ raises (validate_data lt series) = true)
       ∧ (∀ e, validate_data lt series = Raise e →
               o = Raise e ∧ exn_class e = UserError "ValidationError"
               ∧ self st' = self st)
       ∧ (validate_data lt series = Return tt →
          o = construction _get_column_dict series lt tags ust desc meta))
  ∧ (isinstance_Ordinal lt = false → compatible →
       validated st' = validated st
       ∧ o = construction _get_column_dict series lt tags ust desc meta).
Proof.
  intros Hres series compatible o st'.
  destruct (init_hook_calls _get_column_logical_type _get_column_dict
              validate_data arg tags ust desc meta st lt Hres)
    as (Hiff & Hord & Hother).
  split; [exact Hiff|]. split; [|exact Hother].
  intros Hlt Hdtype. destruct (Hord Hlt Hdtype) as [Hlog Ho].
  split; [exact Hlog|]. fold series in Ho. split_and!.
  - rewrite validate_compatible_Ordinal by done. simpl. fold series.
    destruct (validate_data lt series) as [[]|e] eqn:Hhook; simpl.
    + split; [|done]. by intros (? & ? & _).
    + split; [done|]. intros _. exists e. split; [done|].
      by eapply validate_data_ValidationError.
  - intros e Hhook. split_and!.
    + subst o. rewrite Ho. by rewrite Hhook.
    + by eapply validate_data_ValidationError.
    + subst o st'.
      apply (init_raise_self _get_column_logical_type _get_column_dict
               validate_data arg tags ust desc meta st e).
      apply surjective_pairing_raise. rewrite Ho. by rewrite Hhook.
  - intros Hhook. subst o. rewrite Ho. by rewrite Hhook.
Qed.

End OrdinalValidation.

(** ** The compatibility rule *)

(** C3, as amended: the compatibility check compares names.  It rejects the
    logical type if and only if its [pandas_dtype], a dtype name, is not the
    string the dtype of the column renders as; the structure of the dtype
    plays no part beyond its name. *)
Theorem compatibility_by_name
    (_validate_data : LogicalType → pd.Series → Outcome unit)
    (logical_type : LogicalType) (st : State) :
  rejects _validate_data logical_type st
  ↔ pandas_dtype logical_type ≠ pd.str (pd.dtype (_series (self st))).
Proof.
  unfold rejects. split; [|apply validate_incompatible].
  intros Hrej Heq. destruct (isinstance_Ordinal logical_type) eqn:Hord.
  - rewrite validate_compatible_Ordinal in Hrej by done.
    injection Hrej as _ Hst. apply (f_equal validated) in Hst.
    simpl in Hst. by apply snoc_neq in Hst.
  - by rewrite validate_compatible_other in Hrej.
Qed.

(** ** The properties of the schema *)

Lemma json_serializable_PyDict (d : gmap string PyValue) :
  json_serializable (PyDict d) = true
  ↔ map_Forall (λ _ x, json_serializable x = true) d.
Proof.
  change (json_serializable (PyDict d))
    with (map_fold (λ (_ : string) x rest, json_serializable x && rest) true d).
  apply (map_fold_weak_ind
           (λ r (m : gmap string PyValue),
              r = true ↔ map_Forall (λ _ x, json_serializable x = true) m)).
  - split; [intros _; apply map_Forall_empty|done].
  - intros i x m r Hi IH. rewrite map_Forall_insert by done.
    rewrite andb_true_iff. by rewrite IH.
Qed.

Lemma validate_metadata_ok (v : PyValue) :
  _validate_metadata v = Return tt ↔ serializable_mapping v.
Proof.
  destruct v as [| | | | | |d|]; try (split; [discriminate|done]).
  unfold _validate_metadata, serializable_mapping.
  rewrite <- json_serializable_PyDict.
  destruct (json_serializable (PyDict d)); split; intros H;
    (reflexivity || discriminate H).
Qed.

Lemma validate_metadata_TypeError (v : PyValue) :
  ¬ serializable_mapping v →
  ∃ e, _validate_metadata v = Raise e ∧ exn_class e = TypeError.
Proof.
  intros Hv. destruct v as [| | | | | |d|]; try by eexists.
  unfold _validate_metadata.
  destruct (json_serializable (PyDict d)) eqn:Hd; [|by eexists].
  exfalso. apply Hv. by apply json_serializable_PyDict.
Qed.

(** C6, as amended: on an accessor on which [init] has never succeeded, so
    that [_schema] is still [None], reading any of [logical_type],
    [semantic_tags], [description] and [metadata] raises a [TypeError] (the
    subscript of [None]); nothing is returned and the accessor is left as it
    was. *)
Theorem uninitialised_read_TypeError (st : State) :
  _schema (self st) = None →
  (∃ e, logical_type st = (Raise e, st) ∧ exn_class e = TypeError)
  ∧ (∃ e, semantic_tags st = (Raise e, st) ∧ exn_class e = TypeError)
  ∧ (∃ e, description st = (Raise e, st) ∧ exn_class e = TypeError)
  ∧ (∃ e, metadata st = (Raise e, st) ∧ exn_class e = TypeError).
Proof.
  intros Hnone.
  unfold logical_type, semantic_tags, description, metadata, bind, get_schema,
    call.
  rewrite Hnone. simpl. repeat split; by eexists.
Qed.

(** C7: on an initialised accessor, the setter of [description] raises a
    [TypeError] for a value that is neither a string nor [None], and then
    leaves the accessor, its description included, as it was; for a string it
    overwrites the stored description, which the getter then returns, and
    touches nothing else. *)
Theorem description_setter_spec (st : State) (d : gmap string SchemaValue)
    (v : PyValue) :
  _schema (self st) = Some d →
  (str_or_None v = false →
     ∃ e, description_setter v st = (Raise e, st) ∧ exn_class e = TypeError)
  ∧ (∀ s, v = PyStr s →
       ∃ st', description_setter v st = (Return tt, st')
              ∧ description st' = (Return (SValue (PyStr s)), st')
              ∧ _schema (self st') = Some (<["description" := SValue v]> d)
              ∧ _series (self st') = _series (self st)
              ∧ ∀ key, key ≠ "description" →
                       getitem (_schema (self st')) key = getitem (Some d) key).
Proof.
  intros Hd. split.
  - intros Hv. unfold description_setter, bind, call.
    destruct v; try discriminate; by eexists.
  - intros s ->. eexists. split.
    { unfold description_setter, bind, call, get_schema, set_schema.
      simpl. rewrite Hd. reflexivity. }
    unfold description, bind, call, get_schema. simpl.
    rewrite lookup_insert_eq. repeat split.
    intros key Hkey. by rewrite lookup_insert_ne.
Qed.

(** C8: on an initialised accessor, the setter of [metadata], given a
    mapping with JSON-serializable values, replaces the stored mapping by the
    given one (the getter returns exactly it, so that a key of the old
    mapping alone is gone) and leaves every other entry of the schema ([name],
    [logical_type], [semantic_tags], [description]) and the Series as they
    were; given anything else it raises a [TypeError] and changes nothing. *)
Theorem metadata_setter_spec (st : State) (d : gmap string SchemaValue)
    (v : PyValue) :
  _schema (self st) = Some d →
  (serializable_mapping v →
     ∃ st', metadata_setter v st = (Return tt, st')
            ∧ metadata st' = (Return (SValue v), st')
            ∧ _schema (self st') = Some (<["metadata" := SValue v]> d)
            ∧ _series (self st') = _series (self st)
            ∧ ∀ key, key ≠ "metadata" →
                     getitem (_schema (self st')) key = getitem (Some d) key)
  ∧ (¬ serializable_mapping v →
       ∃ e, metadata_setter v st = (Raise e, st) ∧ exn_class e = TypeError).
Proof.
  intros Hd. split.
  - intros Hv%validate_metadata_ok. eexists. split.
    { unfold metadata_setter, bind, call, get_schema, set_schema.
      rewrite Hv. simpl. rewrite Hd. reflexivity. }
    unfold metadata, bind, call, get_schema. simpl.
    rewrite lookup_insert_eq. repeat split.
    intros key Hkey. by rewrite lookup_insert_ne.
  - intros (e & He & Hc)%validate_metadata_TypeError. exists e.
    unfold metadata_setter, bind, call. by rewrite He.
Qed.

(** C9: on an accessor on which [init] has never succeeded, the setters of
    [description] and of [metadata] raise whatever the value: an invalid one
    is refused by the validator, and a valid one fails on the assignment into
    [None], with a [TypeError].  The accessor is left as it was, so it stays
    uninitialised: a setter never creates a schema. *)
Theorem uninitialised_setters_raise (st : State) (v : PyValue) :
  _schema (self st) = None →
  (∃ e, description_setter v st = (Raise e, st)
        ∧ (str_or_None v = true → exn_class e = TypeError
             ∧ exn_msg e = "'NoneType' object does not support item assignment"))
  ∧ (∃ e, metadata_setter v st = (Raise e, st)
          ∧ (serializable_mapping v → exn_class e = TypeError
               ∧ exn_msg e = "'NoneType' object does not support item assignment")).
Proof.
  intros Hnone. split.
  - unfold description_setter, bind, call, get_schema. simpl.
    destruct v; simpl; rewrite ?Hnone; simpl; eexists; (split; [done|]);
      by intros.
  - unfold metadata_setter, bind, call, get_schema.
    destruct (_validate_metadata v) as [[]|e] eqn:Hv.
    + simpl. rewrite Hnone. simpl. by eexists.
    + exists e. split; [done|].
      intros Hok%validate_metadata_ok. congruence.
Qed.

(** ** Equality *)

Lemma option_canon_equal (x y : option PyValue) :
  canon <$> x = canon <$> y ↔ option_Forall2 py_equal x y.
Proof.
  destruct x as [x|], y as [y|]; simpl; split; try done.
  - intros [= H]. by constructor.
  - inversion 1 as [?? Hxy|]. unfold py_equal in Hxy. by rewrite Hxy.
  - inversion 1.
  - inversion 1.
  - intros _. constructor.
Qed.

Lemma labels_canon_equal (xs ys : list PyValue) :
  canon <$> xs = canon <$> ys ↔ Forall2 py_equal xs ys.
Proof.
  rewrite list_eq_Forall2, Forall2_fmap. done.
Qed.

Lemma values_canon_equal (xs ys : list (option PyValue)) :
  fmap (M:=option) canon <$> xs = fmap (M:=option) canon <$> ys
  ↔ Forall2 (option_Forall2 py_equal) xs ys.
Proof.
  rewrite list_eq_Forall2, Forall2_fmap.
  split; intros H; (eapply Forall2_impl; [exact H|]); intros x y;
    apply option_canon_equal.
Qed.

Lemma canon_schema_equal (schema schema' : option (gmap string SchemaValue)) :
  canon_schema schema = canon_schema schema' ↔ schemas_equal schema schema'.
Proof.
  destruct schema as [d|], schema' as [d'|]; simpl; try done.
  split.
  - intros [= H] key.
    apply (f_equal (λ m : gmap string SchemaValue, m !! key)) in H.
    rewrite !lookup_fmap in H.
    destruct (d !! key), (d' !! key); simpl in H; try done.
    + injection H as H. by constructor.
    + constructor.
  - intros H. f_equal. apply map_eq. intros key. rewrite !lookup_fmap.
    specialize (H key). inversion H as [v w Hvw|]; simpl; [|done].
    by rewrite Hvw.
Qed.

Lemma equals_columns (s1 s2 : pd.Series) :
  pd.equals s1 s2 = true ↔ columns_equal s1 s2.
Proof.
  unfold pd.equals, columns_equal.
  rewrite !andb_true_iff, !bool_decide_eq_true.
  rewrite labels_canon_equal, values_canon_equal. tauto.
Qed.

(** [__eq__] in two steps: the schemas have the same representative, and
    the host library finds the two Series equal. *)
Lemma eq_unfold (Series_equals : pd.Series → pd.Series → bool)
    (a b : Accessor) :
  __eq__ Series_equals a b = true
  ↔ canon_schema (_schema a) = canon_schema (_schema b)
    ∧ Series_equals (_series a) (_series b) = true.
Proof.
  unfold __eq__, schema_ne. case_bool_decide as Hne.
  - split; [done|]. by intros [? _].
  - by split; [|intros [_ ?]].
Qed.

(** C5, as amended: two accessors are equal if and only if their schemas
    are equal for Python and their Series are equal for [Series.equals]: the
    same index labels, the same dtype and element-wise equal values, a
    missing value matching a missing value.  In particular an initialised
    accessor is never equal to an uninitialised one, and two accessors whose
    schemas differ in the description, or whose columns differ in a value,
    are unequal. *)
Theorem eq_iff :
  (∀ a b, __eq__ pd.equals a b = true
          ↔ schemas_equal (_schema a) (_schema b)
            ∧ columns_equal (_series a) (_series b))
  ∧ (∀ a b d, _schema a = Some d → _schema b = None →
              __eq__ pd.equals a b = false
              ∧ __eq__ pd.equals b a = false)
  ∧ (∀ a b d v1 v2,
       _schema a = Some (<["description" := SValue v1]> d) →
       _schema b = Some (<["description" := SValue v2]> d) →
       str_or_None v1 = true → str_or_None v2 = true →
       v1 ≠ v2 → __eq__ pd.equals a b = false)
  ∧ (∀ a b i x y,
       pd.values (_series a) !! i = Some x →
       pd.values (_series b) !! i = Some y →
       ¬ option_Forall2 py_equal x y →
       __eq__ pd.equals a b = false).
Proof.
  assert (Hiff : ∀ a b, __eq__ pd.equals a b = true
                        ↔ schemas_equal (_schema a) (_schema b)
                          ∧ columns_equal (_series a) (_series b)).
  { intros a b. by rewrite eq_unfold, canon_schema_equal, equals_columns. }
  split; [exact Hiff|]. split_and!.
  - intros a b d Ha Hb. split; apply not_true_is_false; rewrite Hiff;
      rewrite Ha, Hb; by intros [? _].
  - intros a b d v1 v2 Ha Hb H1 H2 Hne. apply not_true_is_false.
    rewrite Hiff, Ha, Hb. intros [Hs _]. specialize (Hs "description").
    rewrite !lookup_insert_eq in Hs. inversion Hs as [?? Hv|]. simpl in Hv.
    destruct v1, v2; simpl in *; congruence.
  - intros a b i x y Hx Hy Hxy. apply not_true_is_false. rewrite Hiff.
    intros (_ & _ & _ & Hvalues). apply Hxy.
    by eapply Forall2_lookup_lr.
Qed.

(** C10, as amended: equality is defined between two accessors neither of
    which has been initialised, and it holds exactly when their Series are
    equal for [Series.equals] (the same index labels, the same dtype and
    element-wise equal values): both schemas are [None]. *)
Theorem eq_uninitialised (s1 s2 : pd.Series) :
  __eq__ pd.equals (__init__ s1) (__init__ s2) = true ↔ columns_equal s1 s2.
Proof.
  rewrite eq_unfold. simpl. rewrite equals_columns.
  split; [by intros [_ ?]|done].
Qed.

(** [Series.equals] is an equivalence. *)
Lemma dtype_equal_refl d : pd.dtype_equal d d = true.
Proof.
  destruct d; try by apply bool_decide_eq_true.
  simpl. destruct ordered; simpl; by apply bool_decide_eq_true.
Qed.

Lemma dtype_equal_sym d1 d2 :
  pd.dtype_equal d1 d2 = true → pd.dtype_equal d2 d1 = true.
Proof.
  destruct d1 as [| | | | | | | |c1 o1], d2 as [| | | | | | | |c2 o2];
    try done.
  simpl. destruct o1, o2; simpl; try done;
    rewrite !bool_decide_eq_true; [done|]. by intros [? ?].
Qed.

Lemma dtype_equal_trans d1 d2 d3 :
  pd.dtype_equal d1 d2 = true → pd.dtype_equal d2 d3 = true →
  pd.dtype_equal d1 d3 = true.
Proof.
  destruct d1 as [| | | | | | | |c1 o1], d2 as [| | | | | | | |c2 o2];
    try done; destruct d3 as [| | | | | | | |c3 o3]; try done.
  simpl. destruct o1, o2; simpl; try done; destruct o3; simpl; try done;
    rewrite !bool_decide_eq_true; [congruence|].
  intros [? ?] [? ?]. split; by etrans.
Qed.

Lemma equals_refl s : pd.equals s s = true.
Proof.
  unfold pd.equals. rewrite dtype_equal_refl.
  by rewrite !bool_decide_eq_true_2.
Qed.

Lemma equals_sym s t : pd.equals s t = true → pd.equals t s = true.
Proof.
  unfold pd.equals. rewrite !andb_true_iff, !bool_decide_eq_true.
  intros [[? ?] ?]. split_and!; [done|by apply dtype_equal_sym|done].
Qed.

Lemma equals_trans s t u :
  pd.equals s t = true → pd.equals t u = true → pd.equals s u = true.
Proof.
  unfold pd.equals. rewrite !andb_true_iff, !bool_decide_eq_true.
  intros [[? ?] ?] [[? ?] ?].
  split_and!; [congruence|by eapply dtype_equal_trans|congruence].
Qed.

(** ** The accessor at work *)

Example initialised_schema :
  _schema (self initialised) = Some initialised_record.
Proof. vm_compute. reflexivity. Qed.

Example initialised_series :
  _series (self initialised) = letters [PyStr "a"; PyStr "b"] false.
Proof. reflexivity. Qed.

(** Re-initialising the categorical column as [Double]: the error is a
    [ValueError] naming 'category' and 'float64', and the schema installed
    before is still there. *)
Lemma init_incompatible_ValueError_witness :
  pandas_dtype Double ≠ pd.str (pd.dtype (_series (self initialised)))
  ∧ ∃ e, init get_column_logical_type get_column_dict validate_data
           (LTGiven Double) PyNone true PyNone PyNone initialised
         = (Raise e, initialised)
         ∧ exn_class e = ValueError
         ∧ occurs_in "category" (exn_msg e)
         ∧ occurs_in "float64" (exn_msg e).
Proof.
  split; [vm_compute; discriminate|].
  apply (init_incompatible_ValueError get_column_logical_type get_column_dict
           validate_data (LTGiven Double) PyNone true PyNone PyNone
           initialised Double); [reflexivity|vm_compute; discriminate].
Defined.

(** The error raised there is a [ValueError]: no class of its own tells an
    incompatible dtype apart. *)
Lemma init_incompatible_not_IncompatibleTypeError :
  pandas_dtype Double ≠ pd.str (pd.dtype ints)
  ∧ ¬ ∃ e st',
        init get_column_logical_type get_column_dict validate_data
          (LTGiven Double) PyNone true PyNone PyNone (fresh ints)
        = (Raise e, st')
        ∧ exn_class e = UserError "IncompatibleTypeError".
Proof.
  split; [vm_compute; discriminate|].
  intros (e & st' & Hinit & Hclass).
  vm_compute in Hinit. injection Hinit as <- _. discriminate Hclass.
Qed.

(** Re-initialising with a description that is not a string fails in the
    construction of the record; the accessor keeps its schema. *)
Lemma init_all_or_nothing_witness :
  raises (fst (init get_column_logical_type get_column_dict validate_data
                 (LTGiven Categorical) PyNone true (PyInt 123) PyNone
                 initialised)) = true
  ∧ self (snd (init get_column_logical_type get_column_dict validate_data
                 (LTGiven Categorical) PyNone true (PyInt 123) PyNone
                 initialised))
    = self initialised.
Proof.
  split; [reflexivity|].
  apply (init_all_or_nothing get_column_logical_type get_column_dict
           validate_data (LTGiven Categorical) PyNone true (PyInt 123) PyNone
           initialised
           (mkExn TypeError "Column description must be a string")).
  reflexivity.
Defined.

(** Two categorical dtypes that differ in their categories and their order
    both pass the check against [Categorical]: no assignment of a required
    descriptor to the logical types makes the check a comparison of
    descriptors. *)
Lemma structural_check_fails :
  pd.CategoricalDtype [PyStr "a"; PyStr "b"] false
  ≠ pd.CategoricalDtype [PyStr "x"] true
  ∧ ¬ rejects validate_data Categorical
        (fresh (letters [PyStr "a"; PyStr "b"] false))
  ∧ ¬ rejects validate_data Categorical (fresh (letters [PyStr "x"] true))
  ∧ ¬ ∃ required, structural_check required.
Proof.
  assert (H1 : ¬ rejects validate_data Categorical
                   (fresh (letters [PyStr "a"; PyStr "b"] false)))
    by (unfold rejects; vm_compute; discriminate).
  assert (H2 : ¬ rejects validate_data Categorical
                   (fresh (letters [PyStr "x"] true)))
    by (unfold rejects; vm_compute; discriminate).
  repeat split; [discriminate|exact H1|exact H2|].
  intros [required Hreq].
  rewrite (Hreq validate_data) in H1. rewrite (Hreq validate_data) in H2.
  apply dec_stable in H1. apply dec_stable in H2. simpl in H1, H2.
  rewrite H1 in H2. discriminate H2.
Qed.

(** An [Ordinal] whose order names a value that is not in the column: the
    hook is called and [init] raises its [ValidationError]. *)
Lemma init_validation_hook_witness :
  fst (init get_column_logical_type get_column_dict validate_data
         (LTGiven (Ordinal [PyStr "a"; PyStr "z"])) PyNone true PyNone
         PyNone uninitialised)
  = Raise (mkExn (UserError "ValidationError")
             "order values are inconsistent with the data")
  ∧ self (snd (init get_column_logical_type get_column_dict validate_data
                 (LTGiven (Ordinal [PyStr "a"; PyStr "z"])) PyNone true
                 PyNone PyNone uninitialised))
    = self uninitialised.
Proof.
  destruct (init_validation_hook get_column_logical_type get_column_dict
              (LTGiven (Ordinal [PyStr "a"; PyStr "z"])) PyNone
              true PyNone PyNone uninitialised
              (Ordinal [PyStr "a"; PyStr "z"]) eq_refl)
    as (_ & Hcalled & _).
  destruct (Hcalled eq_refl eq_refl) as (_ & _ & Hraise & _).
  destruct (Hraise (mkExn (UserError "ValidationError")
                      "order values are inconsistent with the data")
              eq_refl) as (Ho & _ & Hself).
  split; [exact Ho|exact Hself].
Defined.

(** Reading the logical type of an accessor that was never initialised. *)
Lemma uninitialised_read_TypeError_witness :
  ∃ e, logical_type uninitialised = (Raise e, uninitialised)
       ∧ exn_class e = TypeError.
Proof.
  destruct (uninitialised_read_TypeError uninitialised eq_refl) as [H _].
  exact H.
Defined.

(** The error raised there is not of the attribute or key not found
    class. *)
Lemma uninitialised_read_not_KeyError :
  _schema (self (fresh ints)) = None
  ∧ ¬ ∃ e st', logical_type (fresh ints) = (Raise e, st')
               ∧ (exn_class e = AttributeError ∨ exn_class e = KeyError).
Proof.
  split; [reflexivity|].
  intros (e & st' & Hread & Hclass).
  vm_compute in Hread. injection Hread as <- _.
  destruct Hclass as [Hclass|Hclass]; discriminate Hclass.
Qed.

(** description = 'text', then reading it back. *)
Lemma description_setter_spec_witness :
  ∃ st', description_setter (PyStr "text") initialised = (Return tt, st')
         ∧ description st' = (Return (SValue (PyStr "text")), st').
Proof.
  destruct (description_setter_spec initialised initialised_record
              (PyStr "text") initialised_schema) as [_ Hset].
  destruct (Hset "text" eq_refl) as (st' & Hrun & Hget & _).
  exists st'. split; [exact Hrun|exact Hget].
Defined.

(** metadata = {'j': [2]}: the key 'k' of the old mapping is gone, the
    description is the old one. *)
Lemma metadata_setter_spec_witness :
  ∃ st', metadata_setter (PyDict {["j" := PyList [PyInt 2]]}) initialised
         = (Return tt, st')
         ∧ metadata st'
           = (Return (SValue (PyDict {["j" := PyList [PyInt 2]]})), st')
         ∧ getitem (_schema (self st')) "description"
           = Return (SValue (PyStr "old")).
Proof.
  destruct (metadata_setter_spec initialised initialised_record
              (PyDict {["j" := PyList [PyInt 2]]}) initialised_schema)
    as [Hset _].
  destruct Hset as (st' & Hrun & Hget & _ & _ & Hframe).
  { by apply json_serializable_PyDict. }
  exists st'. split; [exact Hrun|]. split; [exact Hget|].
  rewrite (Hframe "description") by discriminate. reflexivity.
Defined.

(** description = 'text' on an accessor that was never initialised. *)
Lemma uninitialised_setters_raise_witness :
  ∃ e, description_setter (PyStr "text") uninitialised
       = (Raise e, uninitialised)
       ∧ exn_class e = TypeError.
Proof.
  destruct (uninitialised_setters_raise uninitialised (PyStr "text") eq_refl)
    as [(e & Hrun & Hexn) _].
  exists e. split; [exact Hrun|]. exact (proj1 (Hexn eq_refl)).
Defined.

(** Two accessors that were never initialised, on columns with the values
    1, 2, 3: one of dtype int64 and one of dtype Int64, then two of dtype
    int64 under different index labels.  The schemas are the same and the
    columns are element-wise equal, and yet the accessors are unequal. *)
Lemma eq_elementwise_fails :
  (_schema (__init__ ints) = _schema (__init__ nullable_ints)
   ∧ elementwise_equal (pd.values ints) (pd.values nullable_ints)
   ∧ __eq__ pd.equals (__init__ ints) (__init__ nullable_ints) = false)
  ∧ (_schema (__init__ ints) = _schema (__init__ relabelled_ints)
     ∧ elementwise_equal (pd.values ints) (pd.values relabelled_ints)
     ∧ __eq__ pd.equals (__init__ ints) (__init__ relabelled_ints) = false).
Proof. repeat split. Qed.

(** The same for the claim on accessors that were never initialised: equal
    values, dtypes int64 and Int64. *)
Lemma eq_uninitialised_elementwise_fails :
  ¬ (__eq__ pd.equals (__init__ ints) (__init__ nullable_ints) = true
     ↔ elementwise_equal (pd.values ints) (pd.values nullable_ints)).
Proof.
  intros [_ H]. assert (Heq : elementwise_equal (pd.values ints)
                                (pd.values nullable_ints)) by (by split).
  apply H in Heq. vm_compute in Heq. discriminate Heq.
Qed.

(** ** Initialisation, step by step *)

Section InitialisationOutcome.

Variable _get_column_logical_type :
  pd.Series → LogicalTypeArg → option string → Outcome LogicalType.
Variable _get_column_dict :
  option string → LogicalType → PyValue → bool → PyValue → PyValue →
  Outcome (gmap string SchemaValue).
Variable _validate_data : LogicalType → pd.Series → Outcome unit.

(** [init] as a function of what the imported functions answer. *)
Lemma init_result arg tags ust desc meta st :
  init _get_column_logical_type _get_column_dict _validate_data
    arg tags ust desc meta st =
  let series := _series (self st) in
  match _get_column_logical_type series arg (pd.name series) with
  | Raise e => (Raise e, st)
  | Return lt =>
      if bool_decide (pandas_dtype lt = pd.str (pd.dtype series)) then
        match (if isinstance_Ordinal lt then _validate_data lt series
               else Return tt) with
        | Raise e => (Raise e, after_validation lt st)
        | Return _ =>
            match _get_column_dict (pd.name series) lt tags ust desc meta with
            | Raise e => (Raise e, after_validation lt st)
            | Return schema =>
                (Return tt,
                 {| self := {| _series := series; _schema := Some schema |};
                    validated := validated (after_validation lt st) |})
            end
        end
      else (Raise (mkExn ValueError (incompatible_msg series lt)), st)
  end.
Proof.
  rewrite init_steps. simpl.
  destruct (_get_column_logical_type _ _ _) as [lt|e]; [|done].
  unfold after_validation. case_bool_decide as Hdtype.
  - destruct (isinstance_Ordinal lt) eqn:Hord.
    + rewrite validate_compatible_Ordinal by done.
      destruct (_validate_data _ _) as [[]|e]; [|done].
      by destruct (_get_column_dict _ _ _ _ _ _).
    + rewrite validate_compatible_other by done.
      by destruct (_get_column_dict _ _ _ _ _ _).
  - by rewrite validate_incompatible.
Qed.

(** X1: [init] returns exactly when the logical type resolves, its
    [pandas_dtype] is the name of the dtype of the Series, the validation
    hook (called for an [Ordinal] only) returns, and the schema dictionary is
    built; the accessor then holds the same Series and exactly the dictionary
    that was built. *)
Theorem init_returns_iff arg tags ust desc meta st st' :
  init _get_column_logical_type _get_column_dict _validate_data
    arg tags ust desc meta st = (Return tt, st')
  ↔ ∃ lt schema,
      _get_column_logical_type (_series (self st)) arg
        (pd.name (_series (self st))) = Return lt
      ∧ pandas_dtype lt = pd.str (pd.dtype (_series (self st)))
      ∧ (isinstance_Ordinal lt = true →
         _validate_data lt (_series (self st)) = Return tt)
      ∧ _get_column_dict (pd.name (_series (self st))) lt tags ust desc meta
        = Return schema
      ∧ st' = {| self := {| _series := _series (self st);
                            _schema := Some schema |};
                 validated := validated (after_validation lt st) |}.
Proof.
  rewrite init_result. simpl. split.
  - destruct (_get_column_logical_type _ _ _) as [lt|e]; [|done].
    case_bool_decide as Hdtype; [|done].
    destruct (isinstance_Ordinal lt) eqn:Hord.
    + destruct (_validate_data _ _) as [[]|e] eqn:Hhook; [|done].
      destruct (_get_column_dict _ _ _ _ _ _) as [schema|e] eqn:Hdict;
        [|done].
      intros [= <-]. exists lt, schema. split_and!; done.
    + destruct (_get_column_dict _ _ _ _ _ _) as [schema|e] eqn:Hdict;
        [|done].
      intros [= <-]. exists lt, schema. split_and!; try done. congruence.
  - intros (lt & schema & -> & Hdtype & Hhook & -> & ->).
    rewrite bool_decide_eq_true_2 by done.
    destruct (isinstance_Ordinal lt); [|done]. by rewrite Hhook.
Qed.

(** X2: the errors of [init], in the order of its steps.  [init] raises [e]
    exactly when the resolution of the logical type raises [e]; or the
    [pandas_dtype] of the resolved type is not the name of the dtype of the
    Series and [e] is the [ValueError] of the compatibility check; or the
    names agree, the type is an [Ordinal] and its hook raises [e]; or all
    that passed and the construction of the dictionary raises [e]. *)
Theorem init_raises_iff arg tags ust desc meta st e :
  fst (init _get_column_logical_type _get_column_dict _validate_data
         arg tags ust desc meta st) = Raise e
  ↔ _get_column_logical_type (_series (self st)) arg
      (pd.name (_series (self st))) = Raise e
    ∨ ∃ lt,
        _get_column_logical_type (_series (self st)) arg
          (pd.name (_series (self st))) = Return lt
        ∧ ((pandas_dtype lt ≠ pd.str (pd.dtype (_series (self st)))
            ∧ e = mkExn ValueError (incompatible_msg (_series (self st)) lt))
           ∨ (pandas_dtype lt = pd.str (pd.dtype (_series (self st)))
              ∧ isinstance_Ordinal lt = true
              ∧ _validate_data lt (_series (self st)) = Raise e)
           ∨ (pandas_dtype lt = pd.str (pd.dtype (_series (self st)))
              ∧ (isinstance_Ordinal lt = true →
                 _validate_data lt (_series (self st)) = Return tt)
              ∧ _get_column_dict (pd.name (_series (self st))) lt tags ust
                  desc meta = Raise e)).
Proof.
  rewrite init_result. simpl.
  destruct (_get_column_logical_type _ _ _) as [lt|e0]; simpl.
  - case_bool_decide as Hdtype.
    + destruct (isinstance_Ordinal lt) eqn:Hord.
      * destruct (_validate_data _ _) as [[]|e1] eqn:Hhook; simpl.
        -- destruct (_get_column_dict _ _ _ _ _ _) as [schema|e2] eqn:Hdict;
             simpl; split.
           ++ done.
           ++ intros [?|(? & [= <-] & [[? _]|[(_ & _ & ?)|(_ & _ & ?)]])];
                congruence.
           ++ intros [= <-]. right. exists lt. split; [done|].
              right. right. done.
           ++ intros [?|(? & [= <-] & [[? _]|[(_ & _ & ?)|(_ & _ & ?)]])];
                congruence.
        -- split.
           ++ intros [= <-]. right. exists lt. split; [done|].
              right. left. done.
           ++ intros [?|(? & [= <-] & [[? _]|[(_ & _ & ?)|(_ & Hok & _)]])];
                [done|done|congruence|].
              specialize (Hok Hord). congruence.
      * destruct (_get_column_dict _ _ _ _ _ _) as [schema|e2] eqn:Hdict;
          simpl; split.
        -- done.
        -- intros [?|(? & [= <-] & [[? _]|[(_ & ? & _)|(_ & _ & ?)]])];
             congruence.
        -- intros [= <-]. right. exists lt. split; [done|].
           right. right. split_and!; [done| |done]. congruence.
        -- intros [?|(? & [= <-] & [[? _]|[(_ & ? & _)|(_ & _ & ?)]])];
             congruence.
    + split.
      * intros [= <-]. right. exists lt. split; [done|]. left. done.
      * intros [?|(? & [= <-] & [[_ ->]|[(? & _)|(? & _)]])]; done.
  - split.
    + intros [= <-]. by left.
    + intros [[= <-]|(? & ? & _)]; done.
Qed.

(** X3: [init] forgets the schema installed before.  On two accessors of
    the same Series, whatever their schemas, the same call of [init] has the
    same outcome and, when it returns, leaves the same accessor. *)
Theorem init_forgets_previous_schema arg tags ust desc meta st1 st2 :
  _series (self st1) = _series (self st2) →
  fst (init _get_column_logical_type _get_column_dict _validate_data
         arg tags ust desc meta st1)
  = fst (init _get_column_logical_type _get_column_dict _validate_data
           arg tags ust desc meta st2)
  ∧ (fst (init _get_column_logical_type _get_column_dict _validate_data
            arg tags ust desc meta st1) = Return tt →
     self (snd (init _get_column_logical_type _get_column_dict
                  _validate_data arg tags ust desc meta st1))
     = self (snd (init _get_column_logical_type _get_column_dict
                    _validate_data arg tags ust desc meta st2))).
Proof.
  intros Hseries. rewrite !init_result. simpl. rewrite Hseries.
  destruct (_get_column_logical_type _ _ _) as [lt|e]; [|done].
  case_bool_decide; [|done].
  destruct (if isinstance_Ordinal lt then _ else _) as [[]|e]; [|done].
  by destruct (_get_column_dict _ _ _ _ _ _).
Qed.

(** [init] never rebinds the accessor: whatever the arguments and the
    outcome, the accessor is afterwards on the Series it was on. *)
Lemma init_keeps_series arg tags ust desc meta st :
  _series (self (snd (init _get_column_logical_type _get_column_dict
                        _validate_data arg tags ust desc meta st)))
  = _series (self st).
Proof.
  rewrite init_result. simpl. unfold after_validation.
  destruct (_get_column_logical_type _ _ _) as [lt|e]; [|done].
  case_bool_decide; [|done].
  destruct (isinstance_Ordinal lt).
  - destruct (_validate_data _ _) as [[]|e]; [|done].
    by destruct (_get_column_dict _ _ _ _ _ _).
  - by destruct (_get_column_dict _ _ _ _ _ _).
Qed.

(** After [init] the accessor has a schema if [init] returned, and is what
    it was if [init] raised. *)
Lemma init_schema arg tags ust desc meta st :
  match fst (init _get_column_logical_type _get_column_dict _validate_data
               arg tags ust desc meta st) with
  | Return _ =>
      ∃ lt schema,
        _get_column_dict (pd.name (_series (self st))) lt tags ust desc meta
        = Return schema
        ∧ pandas_dtype lt = pd.str (pd.dtype (_series (self st)))
        ∧ _schema (self (snd (init _get_column_logical_type _get_column_dict
                                _validate_data arg tags ust desc meta st)))
          = Some schema
  | Raise _ =>
      self (snd (init _get_column_logical_type _get_column_dict
                   _validate_data arg tags ust desc meta st)) = self st
  end.
Proof.
  rewrite init_result. simpl. unfold after_validation.
  destruct (_get_column_logical_type _ _ _) as [lt|e]; [|done].
  case_bool_decide as Hdtype; [|done].
  destruct (isinstance_Ordinal lt).
  - destruct (_validate_data _ _) as [[]|e]; [|done].
    destruct (_get_column_dict _ _ _ _ _ _) as [schema|e] eqn:Hdict; [|done].
    simpl. by exists lt, schema.
  - destruct (_get_column_dict _ _ _ _ _ _) as [schema|e] eqn:Hdict; [|done].
    simpl. by exists lt, schema.
Qed.

End InitialisationOutcome.

(** ** Reading and writing the schema *)

Lemma description_setter_run v st :
  description_setter v st =
  match _validate_description v with
  | Raise e => (Raise e, st)
  | Return _ => assign "description" v st
  end.
Proof.
  unfold description_setter, assign, bind, call, get_schema.
  destruct (_validate_description v) as [[]|e]; [|done].
  by destruct (_schema (self st)).
Qed.

Lemma metadata_setter_run v st :
  metadata_setter v st =
  match _validate_metadata v with
  | Raise e => (Raise e, st)
  | Return _ => assign "metadata" v st
  end.
Proof.
  unfold metadata_setter, assign, bind, call, get_schema.
  destruct (_validate_metadata v) as [[]|e]; [|done].
  by destruct (_schema (self st)).
Qed.

Lemma getitem_Return schema key v :
  getitem schema key = Return v
  ↔ ∃ d, schema = Some d ∧ d !! key = Some v.
Proof.
  unfold getitem. destruct schema as [d|].
  - destruct (d !! key) as [w|] eqn:Hkey.
    + split; [intros [= ->]; by exists d|].
      intros (? & [= <-] & ?). congruence.
    + split; [done|]. intros (? & [= <-] & ?). congruence.
  - split; [done|]. by intros (? & ? & _).
Qed.

Lemma getitem_Raise schema key e :
  getitem schema key = Raise e →
  (exn_class e = KeyError ↔ is_Some schema)
  ∧ (exn_class e = TypeError ↔ schema = None).
Proof.
  unfold getitem. destruct schema as [d|].
  - destruct (d !! key); [done|]. intros [= <-]. simpl.
    split; split; try done.
  - intros [= <-]. simpl. split; split; try done.
Qed.

(** X4: a property getter only reads.  It leaves the accessor as it was; it
    returns [v] exactly when the accessor has a schema that holds [v] under
    the key of the property; and when it raises, the error is a [KeyError]
    if there is a schema (the entry is missing) and a [TypeError] if there is
    none. *)
Theorem getters_outcome (st : State) :
  Forall (λ property : M SchemaValue * string,
            snd (property.1 st) = st
            ∧ (∀ v, fst (property.1 st) = Return v
                    ↔ ∃ d, _schema (self st) = Some d
                           ∧ d !! property.2 = Some v)
            ∧ (∀ e, fst (property.1 st) = Raise e →
                    (exn_class e = KeyError ↔ is_Some (_schema (self st)))
                    ∧ (exn_class e = TypeError ↔ _schema (self st) = None)))
    [(description, "description"); (logical_type, "logical_type");
     (metadata, "metadata"); (semantic_tags, "semantic_tags")].
Proof.
  assert (Hread : ∀ (getter : M SchemaValue) key,
            getter st = (getitem (_schema (self st)) key, st) →
            snd (getter st) = st
            ∧ (∀ v, fst (getter st) = Return v
                    ↔ ∃ d, _schema (self st) = Some d ∧ d !! key = Some v)
            ∧ (∀ e, fst (getter st) = Raise e →
                    (exn_class e = KeyError ↔ is_Some (_schema (self st)))
                    ∧ (exn_class e = TypeError ↔ _schema (self st) = None))).
  { intros getter key ->. simpl. split; [done|split].
    - intros v. apply getitem_Return.
    - intros e. apply getitem_Raise. }
  repeat (apply List.Forall_cons; [by apply Hread|]). apply List.Forall_nil.
Qed.

(** X5: the two setters commute.  Setting the description and then the
    metadata returns, and leaves a given state, exactly when setting the
    metadata and then the description does. *)
Theorem setters_commute (v w : PyValue) (st st' : State) :
  (description_setter v ;; metadata_setter w) st = (Return tt, st')
  ↔ (metadata_setter w ;; description_setter v) st = (Return tt, st').
Proof.
  unfold bind. rewrite (description_setter_run v st).
  rewrite (metadata_setter_run w st).
  destruct (_validate_description v) as [[]|e1] eqn:Hv;
    destruct (_validate_metadata w) as [[]|e2] eqn:Hw;
    unfold assign; destruct (_schema (self st)) as [d|] eqn:Hd;
    try rewrite description_setter_run, ?Hv;
    try rewrite metadata_setter_run, ?Hw; unfold assign; simpl; try done.
  unfold with_entry. simpl.
  by rewrite (insert_insert_ne d "description" "metadata").
Qed.

(** X6: the last write wins.  If a setter returns and the same setter, with
    another value, would have returned in its place, then calling the second
    after the first leaves what the second alone would have left. *)
Theorem setters_last_write_wins (v w : PyValue) (st st1 st2 : State) :
  (description_setter v st = (Return tt, st1) →
   description_setter w st = (Return tt, st2) →
   description_setter w st1 = (Return tt, st2))
  ∧ (metadata_setter v st = (Return tt, st1) →
     metadata_setter w st = (Return tt, st2) →
     metadata_setter w st1 = (Return tt, st2)).
Proof.
  split; intros H1 H2.
  - rewrite description_setter_run in *.
    destruct (_validate_description v) as [[]|?]; [|done].
    destruct (_validate_description w) as [[]|?]; [|done].
    unfold assign in *. destruct (_schema (self st)) as [d|]; [|done].
    injection H1 as <-. injection H2 as <-. simpl.
    unfold with_entry. simpl. by rewrite insert_insert_eq.
  - rewrite metadata_setter_run in *.
    destruct (_validate_metadata v) as [[]|?]; [|done].
    destruct (_validate_metadata w) as [[]|?]; [|done].
    unfold assign in *. destruct (_schema (self st)) as [d|]; [|done].
    injection H1 as <-. injection H2 as <-. simpl.
    unfold with_entry. simpl. by rewrite insert_insert_eq.
Qed.

(** X7: a setter is all-or-nothing.  Whether the validator refuses the value
    or the accessor has no schema to write into, a setter that raises leaves
    the state as it was. *)
Theorem setters_all_or_nothing (v : PyValue) (st st' : State) (e : Exn) :
  description_setter v st = (Raise e, st')
  ∨ metadata_setter v st = (Raise e, st') →
  st' = st.
Proof.
  rewrite description_setter_run, metadata_setter_run. unfold assign.
  intros [H|H].
  - destruct (_validate_description v) as [[]|?]; [|by injection H].
    destruct (_schema (self st)); [done|by injection H].
  - destruct (_validate_metadata v) as [[]|?]; [|by injection H].
    destruct (_schema (self st)); [done|by injection H].
Qed.

(** X8: a setter returns exactly when the validator accepts the value and
    the accessor has a schema; the validator is asked first, so that on an
    accessor without a schema a refused value is reported by the error of the
    validator. *)
Theorem setters_return_iff (v : PyValue) (st : State) :
  (fst (description_setter v st) = Return tt
   ↔ _validate_description v = Return tt ∧ is_Some (_schema (self st)))
  ∧ (fst (metadata_setter v st) = Return tt
     ↔ _validate_metadata v = Return tt ∧ is_Some (_schema (self st)))
  ∧ (∀ e, _validate_description v = Raise e →
          description_setter v st = (Raise e, st))
  ∧ (∀ e, _validate_metadata v = Raise e →
          metadata_setter v st = (Raise e, st)).
Proof.
  rewrite description_setter_run, metadata_setter_run. unfold assign.
  split_and!.
  - destruct (_validate_description v) as [[]|?];
      destruct (_schema (self st)); simpl; split; try done;
      try (by intros [? ?]); try (by intros [_ [? ?]]).
  - destruct (_validate_metadata v) as [[]|?];
      destruct (_schema (self st)); simpl; split; try done;
      try (by intros [? ?]); try (by intros [_ [? ?]]).
  - by intros e ->.
  - by intros e ->.
Qed.

(** ** The summary of an accessor *)

Section DisplayProperties.

Variable format : SchemaValue → string.

Lemma repr_run st :
  __repr__ format st =
  match getitem (_schema (self st)) "logical_type" with
  | Raise e => (Raise e, st)
  | Return lt =>
      match getitem (_schema (self st)) "semantic_tags" with
      | Raise e => (Raise e, st)
      | Return tags =>
          (Return ("<Series: " +:+ format_name (pd.name (_series (self st)))
                   +:+ " (Physical Type = "
                   +:+ pd.str (pd.dtype (_series (self st)))
                   +:+ ") (Logical Type = " +:+ format lt
                   +:+ ") (Semantic Tags = " +:+ format tags +:+ ")>"), st)
      end
  end.
Proof.
  unfold __repr__, logical_type, semantic_tags, bind, get_series, get_schema,
    call, ret.
  destruct (getitem _ "logical_type") as [lt|e]; [|done].
  destruct (getitem _ "semantic_tags") as [tags|e]; [|done].
  f_equal. f_equal. by rewrite !append_assoc.
Qed.

(** X9: [__repr__] returns exactly when the schema holds a logical type and
    semantic tags; it then leaves the accessor as it was and returns one
    line, made in this order of the name of the Series, the name of its
    dtype, the logical type and the semantic tags. *)
Theorem repr_returns_iff (st st' : State) (msg : string) :
  __repr__ format st = (Return msg, st')
  ↔ st' = st
    ∧ ∃ d lt tags,
        _schema (self st) = Some d
        ∧ d !! "logical_type" = Some lt
        ∧ d !! "semantic_tags" = Some tags
        ∧ msg = "<Series: " +:+ format_name (pd.name (_series (self st)))
                +:+ " (Physical Type = "
                +:+ pd.str (pd.dtype (_series (self st)))
                +:+ ") (Logical Type = " +:+ format lt
                +:+ ") (Semantic Tags = " +:+ format tags +:+ ")>".
Proof.
  rewrite repr_run. split.
  - destruct (getitem _ "logical_type") as [lt|e] eqn:Hlt; [|done].
    destruct (getitem _ "semantic_tags") as [tags|e] eqn:Htags; [|done].
    apply getitem_Return in Hlt as (d & Hd & Hlt).
    apply getitem_Return in Htags as (d' & Hd' & Htags).
    intros [= <- <-]. split; [done|]. exists d, lt, tags.
    split_and!; try done. congruence.
  - intros (-> & d & lt & tags & Hd & Hlt & Htags & ->).
    rewrite Hd. simpl. by rewrite Hlt, Htags.
Qed.

(** X10: [__repr__] of an accessor that was never initialised raises the
    [TypeError] of the first read of the schema, that of the logical type,
    and leaves the accessor as it was. *)
Theorem repr_uninitialised (st : State) :
  _schema (self st) = None →
  __repr__ format st
  = (Raise (mkExn TypeError "'NoneType' object is not subscriptable"), st).
Proof. intros Hnone. rewrite repr_run. by rewrite Hnone. Qed.

End DisplayProperties.

(** ** Equality, again *)

Section EqualityLaws.

Variable Series_equals : pd.Series → pd.Series → bool.

(** X11: [__eq__] is an equivalence on accessors whenever the equality of
    the host library is one on Series: comparing the schemas first keeps
    reflexivity, symmetry and transitivity. *)
Theorem eq_equivalence :
  (∀ s, Series_equals s s = true) →
  (∀ s t, Series_equals s t = true → Series_equals t s = true) →
  (∀ s t u, Series_equals s t = true → Series_equals t u = true →
            Series_equals s u = true) →
  (∀ a, __eq__ Series_equals a a = true)
  ∧ (∀ a b, __eq__ Series_equals a b = true →
            __eq__ Series_equals b a = true)
  ∧ (∀ a b c, __eq__ Series_equals a b = true →
              __eq__ Series_equals b c = true →
              __eq__ Series_equals a c = true).
Proof.
  intros Hrefl Hsym Htrans. split_and!.
  - intros a. by apply eq_unfold.
  - intros a b [Hs He]%eq_unfold. apply eq_unfold. split; [done|by apply Hsym].
  - intros a b c [Hs1 He1]%eq_unfold [Hs2 He2]%eq_unfold. apply eq_unfold.
    split; [congruence|by eapply Htrans].
Qed.

Lemma assign_eq key v st1 st2 :
  canon_schema (_schema (self st1)) = canon_schema (_schema (self st2)) →
  Series_equals (_series (self st1)) (_series (self st2)) = true →
  fst (assign key v st1) = fst (assign key v st2)
  ∧ __eq__ Series_equals (self (snd (assign key v st1)))
      (self (snd (assign key v st2))) = true.
Proof.
  intros Hs He. unfold assign.
  destruct (_schema (self st1)) as [d1|] eqn:H1,
           (_schema (self st2)) as [d2|] eqn:H2; try done; simpl.
  - split; [done|]. apply eq_unfold. simpl. split; [|done].
    injection Hs as Hs. unfold canon_schema. simpl.
    by rewrite !fmap_insert, Hs.
  - split; [done|]. apply eq_unfold. by rewrite H1, H2.
Qed.

(** X12: the setters respect equality.  On two equal accessors, the same
    assignment of the description, or of the metadata, has the same outcome
    and leaves two equal accessors. *)
Theorem eq_preserved_by_setters (v : PyValue) (st1 st2 : State) :
  __eq__ Series_equals (self st1) (self st2) = true →
  (fst (description_setter v st1) = fst (description_setter v st2)
   ∧ __eq__ Series_equals (self (snd (description_setter v st1)))
       (self (snd (description_setter v st2))) = true)
  ∧ (fst (metadata_setter v st1) = fst (metadata_setter v st2)
     ∧ __eq__ Series_equals (self (snd (metadata_setter v st1)))
         (self (snd (metadata_setter v st2))) = true).
Proof.
  intros [Hs He]%eq_unfold.
  rewrite !description_setter_run, !metadata_setter_run. split.
  - destruct (_validate_description v) as [[]|e]; [by apply assign_eq|].
    split; [done|]. by apply eq_unfold.
  - destruct (_validate_metadata v) as [[]|e]; [by apply assign_eq|].
    split; [done|]. by apply eq_unfold.
Qed.

End EqualityLaws.

(** ** Sessions *)

Section SessionProperties.

Variable _get_column_logical_type :
  pd.Series → LogicalTypeArg → option string → Outcome LogicalType.
Variable _get_column_dict :
  option string → LogicalType → PyValue → bool → PyValue → PyValue →
  Outcome (gmap string SchemaValue).
Variable _validate_data : LogicalType → pd.Series → Outcome unit.
Variable format : SchemaValue → string.

Local Abbreviation perform' :=
  (perform _get_column_logical_type _get_column_dict _validate_data format).

Lemma discard_self {A} (m : M A) st :
  snd (m st) = st → snd (discard m st) = st.
Proof. unfold discard, bind, ret. by destruct (m st) as [[?|?] ?]. Qed.

Lemma setter_self key v st :
  _series (self (snd (assign key v st))) = _series (self st)
  ∧ (is_Some (_schema (self (snd (assign key v st))))
     ↔ is_Some (_schema (self st))).
Proof.
  unfold assign. destruct (_schema (self st)) as [d|] eqn:Hd; simpl.
  - split; [done|]. by split; intros _; eexists.
  - by rewrite Hd.
Qed.

(** A call that is not a call of [init] that returns keeps the Series, and
    keeps the accessor with or without a schema, as it was. *)
Lemma perform_other c st :
  is_init c && negb (raises (fst (perform' c st))) = false →
  _series (self (snd (perform' c st))) = _series (self st)
  ∧ (is_Some (_schema (self (snd (perform' c st))))
     ↔ is_Some (_schema (self st))).
Proof.
  destruct c; simpl.
  - pose proof (init_schema _get_column_logical_type _get_column_dict
                  _validate_data logical_type0 semantic_tags0
                  use_standard_tags description0 metadata0 st) as H.
    destruct (fst (init _ _ _ _ _ _ _ _ _)); [done|].
    intros _. by rewrite H.
  - intros _. by rewrite discard_self.
  - intros _. rewrite description_setter_run.
    destruct (_validate_description _); [apply setter_self|done].
  - intros _. by rewrite discard_self.
  - intros _. by rewrite discard_self.
  - intros _. rewrite metadata_setter_run.
    destruct (_validate_metadata _); [apply setter_self|done].
  - intros _. by rewrite discard_self.
  - intros _. rewrite discard_self; [done|]. rewrite repr_run.
    destruct (getitem _ "logical_type"); [|done].
    by destruct (getitem _ "semantic_tags").
Qed.

Lemma perform_init c st :
  is_init c && negb (raises (fst (perform' c st))) = true →
  _series (self (snd (perform' c st))) = _series (self st)
  ∧ is_Some (_schema (self (snd (perform' c st)))).
Proof.
  destruct c; simpl; try done.
  pose proof (init_schema _get_column_logical_type _get_column_dict
                _validate_data logical_type0 semantic_tags0
                use_standard_tags description0 metadata0 st) as H.
  split; [apply init_keeps_series|].
  destruct (fst (init _ _ _ _ _ _ _ _ _)); [|done].
  destruct H as (? & ? & _ & _ & ->). by eexists.
Qed.

(** X13: no call rebinds the accessor.  After any session, whatever its
    calls returned or raised, the accessor is on the Series it was created
    on. *)
Theorem session_keeps_series (calls : list Call) (st : State) :
  _series (self (session _get_column_logical_type _get_column_dict
                   _validate_data format calls st))
  = _series (self st).
Proof.
  revert st. induction calls as [|c calls IH]; intros st; [done|].
  simpl. rewrite IH.
  destruct (is_init c && negb (raises (fst (perform' c st)))) eqn:Hc.
  - by apply perform_init.
  - by apply perform_other.
Qed.

(** X14: the life cycle of the schema.  After a session the accessor has a
    schema exactly when it had one before or some call of [init] in the
    session returned: nothing but [init] creates a schema, and nothing
    removes one. *)
Theorem session_initialised_iff (calls : list Call) (st : State) :
  is_Some (_schema (self (session _get_column_logical_type _get_column_dict
                            _validate_data format calls st)))
  ↔ is_Some (_schema (self st))
    ∨ init_returned _get_column_logical_type _get_column_dict _validate_data
        format calls st = true.
Proof.
  revert st. induction calls as [|c calls IH]; intros st; simpl.
  - split; [by left|]. by intros [?|?].
  - rewrite IH.
    destruct (is_init c && negb (raises (fst (perform' c st)))) eqn:Hc; simpl.
    + apply perform_init in Hc as [_ Hc]. split; [by right|by left].
    + apply perform_other in Hc as [_ Hc]. by rewrite Hc.
Qed.

(** X15: the dtype recorded is the dtype of the Series.  Provided the
    schema dictionary is built with the logical type it is given under
    'logical_type', every session keeps this invariant: if the accessor has
    a schema, the [pandas_dtype] of its logical type is the name of the dtype
    of the Series.  [init] establishes it and no setter touches it. *)
Theorem session_keeps_compatibility (calls : list Call) (st : State) :
  (∀ name lt tags ust desc meta d,
     _get_column_dict name lt tags ust desc meta = Return d →
     d !! "logical_type" = Some (SLogicalType lt)) →
  compatible_schema (self st) →
  compatible_schema
    (self (session _get_column_logical_type _get_column_dict _validate_data
             format calls st)).
Proof.
  intros Hbuild. revert st.
  assert (Hassign : ∀ key v st,
            key ≠ "logical_type" → compatible_schema (self st) →
            compatible_schema (self (snd (assign key v st)))).
  { intros key v st Hkey. unfold assign, compatible_schema.
    destruct (_schema (self st)) as [d|] eqn:Hd; simpl; [|by rewrite Hd].
    by rewrite lookup_insert_ne. }
  induction calls as [|c calls IH]; intros st Hst; [done|].
  simpl. apply IH. destruct c; simpl.
  - pose proof (init_schema _get_column_logical_type _get_column_dict
                  _validate_data logical_type0 semantic_tags0
                  use_standard_tags description0 metadata0 st) as H.
    pose proof (init_keeps_series _get_column_logical_type _get_column_dict
                  _validate_data logical_type0 semantic_tags0
                  use_standard_tags description0 metadata0 st) as Hseries.
    destruct (fst (init _ _ _ _ _ _ _ _ _)); [|by rewrite H].
    destruct H as (lt & schema & Hdict & Hdtype & Hschema).
    unfold compatible_schema. rewrite Hschema, Hseries.
    exists lt. split; [by eapply Hbuild|done].
  - by rewrite discard_self.
  - rewrite description_setter_run.
    destruct (_validate_description _); [by apply Hassign|done].
  - by rewrite discard_self.
  - by rewrite discard_self.
  - rewrite metadata_setter_run.
    destruct (_validate_metadata _); [by apply Hassign|done].
  - by rewrite discard_self.
  - rewrite discard_self; [done|]. rewrite repr_run.
    destruct (getitem _ "logical_type"); [|done].
    by destruct (getitem _ "semantic_tags").
Qed.

End SessionProperties.

(** ** More of the accessor at work *)

Lemma get_column_dict_logical_type name lt tags ust desc meta d :
  get_column_dict name lt tags ust desc meta = Return d →
  d !! "logical_type" = Some (SLogicalType lt).
Proof.
  unfold get_column_dict.
  destruct (_validate_description desc); [|done].
  destruct (_validate_metadata _); [|done].
  destruct (tags_of tags); [|done].
  intros [= <-]. by rewrite lookup_insert_ne, lookup_insert_eq.
Qed.

(** The same [init] on the initialised accessor and on a fresh one of the
    same Series. *)
Lemma init_forgets_previous_schema_witness :
  self (snd (init get_column_logical_type get_column_dict validate_data
               (LTGiven Categorical) PyNone false PyNone PyNone initialised))
  = self (snd (init get_column_logical_type get_column_dict validate_data
                 (LTGiven Categorical) PyNone false PyNone PyNone
                 uninitialised)).
Proof.
  destruct (init_forgets_previous_schema get_column_logical_type
              get_column_dict validate_data (LTGiven Categorical) PyNone
              false PyNone PyNone initialised uninitialised eq_refl)
    as [_ Hself].
  apply Hself. reflexivity.
Defined.

(** description = 'a', then description = 'b'. *)
Lemma setters_last_write_wins_witness :
  description_setter (PyStr "b")
    (run (description_setter (PyStr "a")) initialised)
  = (Return tt, run (description_setter (PyStr "b")) initialised).
Proof.
  apply (proj1 (setters_last_write_wins (PyStr "a") (PyStr "b") initialised
                  _ _)); reflexivity.
Defined.

(** description = 123 on the initialised accessor. *)
Lemma setters_all_or_nothing_witness :
  snd (description_setter (PyInt 123) initialised) = initialised.
Proof.
  apply (setters_all_or_nothing (PyInt 123) initialised _
           (mkExn TypeError "Column description must be a string")).
  left. reflexivity.
Defined.

(** The summary of an accessor that was never initialised. *)
Lemma repr_uninitialised_witness :
  __repr__ render uninitialised
  = (Raise (mkExn TypeError "'NoneType' object is not subscriptable"),
     uninitialised).
Proof. apply (repr_uninitialised render uninitialised). reflexivity. Defined.

(** With [Series.equals]. *)
Lemma eq_equivalence_witness :
  (∀ a, __eq__ pd.equals a a = true)
  ∧ (∀ a b, __eq__ pd.equals a b = true → __eq__ pd.equals b a = true)
  ∧ (∀ a b c, __eq__ pd.equals a b = true →
              __eq__ pd.equals b c = true →
              __eq__ pd.equals a c = true).
Proof.
  apply (eq_equivalence pd.equals).
  - exact equals_refl.
  - exact equals_sym.
  - exact equals_trans.
Defined.

(** description = 'new' on two accessors that are equal. *)
Lemma eq_preserved_by_setters_witness :
  __eq__ pd.equals
    (self (snd (description_setter (PyStr "new") initialised)))
    (self (snd (description_setter (PyStr "new")
                  {| self := self initialised; validated := [] |})))
  = true.
Proof.
  destruct (eq_preserved_by_setters pd.equals (PyStr "new") initialised
              {| self := self initialised; validated := [] |})
    as [[_ Heq] _]; [|exact Heq].
  vm_compute. reflexivity.
Defined.

(** A session on a fresh accessor: an [init] that returns, two assignments
    and an [init] that raises. *)
Lemma session_keeps_compatibility_witness :
  compatible_schema
    (self (session get_column_logical_type get_column_dict validate_data
             render
             [CallInit (LTGiven Categorical) PyNone true PyNone PyNone;
              CallSetDescription (PyStr "letters");
              CallInit (LTGiven Double) PyNone true PyNone PyNone;
              CallSetMetadata (PyDict ∅)]
             uninitialised)).
Proof.
  apply (session_keeps_compatibility get_column_logical_type get_column_dict
           validate_data render).
  - apply get_column_dict_logical_type.
  - exact I.
Defined.

Example repr_initialised :
  fst (__repr__ render
         (run (init get_column_logical_type get_column_dict validate_data
                 (LTGiven Categorical) (PyStr "tag") false PyNone PyNone)
              uninitialised))
  = Return "<Series: c (Physical Type = category) (Logical Type = Categorical) (Semantic Tags = {'tag'})>".
Proof. vm_compute. reflexivity. Qed.

Example session_example :
  _schema (self (session get_column_logical_type get_column_dict
                   validate_data render
                   [CallSetDescription (PyStr "early"); CallRepr;
                    CallInit (LTGiven Double) PyNone true PyNone PyNone]
                   uninitialised)) = None.
Proof. vm_compute. reflexivity. Qed.

(** For Python the metadata {'k': 1} and {'k': True} are equal, and so are
    two accessors that differ in nothing else. *)
Example eq_metadata_True_1 :
  __eq__ pd.equals
    {| _series := ints;
       _schema := Some {["metadata" := SValue (PyDict {["k" := PyInt 1]})]} |}
    {| _series := ints;
       _schema :=
         Some {["metadata" := SValue (PyDict {["k" := PyBool true]})]} |}
  = true.
Proof. vm_compute. reflexivity. Qed.
